(** * obsidian-task-admonitor: front matter, date lookup and the banner

    A shallow embedding of the plugin's logic:
    - [AppHelper.getNoCacheFrontMatter] (app-helper.ts),
    - [OldNoteAdmonitorPlugin.findDate], [removeAdmonitor],
      [insertAdmonitor] and [exec] (main.ts),
    - the [Settings] record and [DEFAULT_SETTINGS] (settings.ts).

    JavaScript strings are sequences of UTF-16 code units, a plain object is
    a finite map from property names to values, the DOM below a view's
    [containerEl] is a forest of elements, a thrown error is an explicit
    outcome and an async function is read as its result.  What the host
    provides is a parameter: the clock and the time zone, dayjs's reading of
    a date text, and the RegExp engine behind the capture-group pattern.
    dayjs's [diff] by day and its [format] are written out over integers of
    milliseconds. *)

From Stdlib Require Import ZArith NArith Lia Bool DecimalString.
From stdpp Require Import base option list strings gmap.

Local Open Scope N_scope.

(** ** JavaScript strings *)

(** One UTF-16 code unit. *)
Definition char : Type := N.

(** A JavaScript string. *)
Abbreviation jsstring := (list char).

(** A string literal of the source, one code unit per ASCII character. *)
Definition js (s : String.string) : jsstring :=
  map Ascii.N_of_ascii (String.list_ascii_of_string s).

Definition LF : char := 10.
Definition SPACE : char := 32.
Definition DOLLAR : char := 36.
Definition COLON : char := 58.

(** ECMAScript LineTerminator code points. *)
Definition is_line_terminator (c : char) : bool :=
  (c =? 10) || (c =? 13) || (c =? 8232) || (c =? 8233).

(** ECMAScript WhiteSpace code points: TAB, VT, FF, ZWNBSP and the Unicode
    space separators. *)
Definition is_white_space (c : char) : bool :=
  (c =? 9) || (c =? 11) || (c =? 12) || (c =? 32) || (c =? 160)
  || (c =? 5760) || ((8192 <=? c) && (c <=? 8202))
  || (c =? 8239) || (c =? 8287) || (c =? 12288) || (c =? 65279).

(** What [String.prototype.trim] strips. *)
Definition is_trimmed_char (c : char) : bool :=
  is_white_space c || is_line_terminator c.

Fixpoint drop_while (p : char -> bool) (s : jsstring) : jsstring :=
  match s with
  | c :: r => if p c then drop_while p r else s
  | [] => []
  end.

Definition trimStart (s : jsstring) : jsstring := drop_while is_trimmed_char s.
Definition trimEnd (s : jsstring) : jsstring := rev (drop_while is_trimmed_char (rev s)).

(** [s.trim()] *)
Definition trim (s : jsstring) : jsstring := trimEnd (trimStart s).

(** [s.split(sep)] for a separator of one code unit: the segments between the
    occurrences of [sep]; never empty, [[""]] for the empty string. *)
Fixpoint split (sep : char) (s : jsstring) : list jsstring :=
  match s with
  | [] => [[]]
  | c :: r =>
      if c =? sep then [] :: split sep r
      else match split sep r with
           | seg :: segs => (c :: seg) :: segs
           | [] => [[c]]
           end
  end.

(** [lines.join(sep)], the inverse of [split] on separator-free segments. *)
Fixpoint join (sep : char) (segs : list jsstring) : jsstring :=
  match segs with
  | [] => []
  | [seg] => seg
  | seg :: rest => seg ++ sep :: join sep rest
  end.

Definition jsstring_eqb (a b : jsstring) : bool := bool_decide (a = b).

(** ** Regular expressions of the source *)

(** The fragment of regular expressions that app-helper.ts uses. *)
Inductive regex : Type :=
| RDot                       (* [.]  any code unit but a line terminator *)
| RChar (c : char)           (* a literal code unit *)
| RPlus (r : regex)          (* [r+] *)
| RSeq (r1 r2 : regex).      (* [r1r2] *)

(** [matches r s]: the whole of [s] is a match of [r]. *)
Inductive matches : regex -> jsstring -> Prop :=
| MDot c : is_line_terminator c = false -> matches RDot [c]
| MChar c : matches (RChar c) [c]
| MPlus1 r s : matches r s -> matches (RPlus r) s
| MPlusS r s1 s2 : matches r s1 -> matches (RPlus r) s2 -> matches (RPlus r) (s1 ++ s2)
| MSeq r1 r2 s1 s2 : matches r1 s1 -> matches r2 s2 -> matches (RSeq r1 r2) (s1 ++ s2).

(** [r.test(s)] for a regex without anchors or flags: some substring of [s]
    is a match. *)
Definition regex_test (r : regex) (s : jsstring) : Prop :=
  exists pre m post, s = pre ++ m ++ post /\ matches r m.

(** The literal [/.+: .+/] of getNoCacheFrontMatter. *)
Definition key_value_regex : regex :=
  RSeq (RPlus RDot) (RSeq (RChar COLON) (RSeq (RChar SPACE) (RPlus RDot))).

(** [/.+: .+/.test(line)], computed: a code unit that [.] accepts, a colon, a
    space and again a code unit that [.] accepts, somewhere in the line. *)
Fixpoint key_value_test (line : jsstring) : bool :=
  match line with
  | c1 :: rest =>
      match rest with
      | c2 :: c3 :: c4 :: _ =>
          (negb (is_line_terminator c1) && (c2 =? COLON) && (c3 =? SPACE)
           && negb (is_line_terminator c4))
          || key_value_test rest
      | _ => false
      end
  | [] => false
  end.

(** The pattern matches at the head of the line. *)
Definition key_value_here (line : jsstring) : bool :=
  match line with
  | c1 :: c2 :: c3 :: c4 :: _ =>
      negb (is_line_terminator c1) && (c2 =? COLON) && (c3 =? SPACE)
      && negb (is_line_terminator c4)
  | _ => false
  end.

(** A colon and a space between two code units that are no line
    terminators. *)
Definition has_key_value_shape (line : jsstring) : Prop :=
  exists pre c1 c2 post,
    line = pre ++ c1 :: COLON :: SPACE :: c2 :: post
    /\ is_line_terminator c1 = false /\ is_line_terminator c2 = false.

(** ** JavaScript values and plain objects *)

(** The values that reach a front-matter object or come out of it. *)
Inductive value : Type :=
| VUndefined
| VString (s : jsstring)
| VObject.   (* an object or function, such as the members of Object.prototype *)

(** ToBoolean *)
Definition truthy (v : value) : bool :=
  match v with
  | VUndefined => false
  | VString [] => false
  | VString (_ :: _) => true
  | VObject => true
  end.

#[global] Instance value_eq_dec : EqDecision value.
Proof. solve_decision. Defined.

(** The own properties of an object created by [{}]. *)
Abbreviation object := (gmap jsstring value).

(** The property names every plain object inherits from Object.prototype. *)
Definition object_prototype_names : list jsstring :=
  map js ["constructor"; "__defineGetter__"; "__defineSetter__";
          "hasOwnProperty"; "__lookupGetter__"; "__lookupSetter__";
          "isPrototypeOf"; "propertyIsEnumerable"; "toString"; "valueOf";
          "__proto__"; "toLocaleString"]%string.

(** [o[k] = v] for a string or undefined [v]: the inherited [__proto__]
    setter ignores such a value, every other name becomes an own property. *)
Definition obj_set (k : jsstring) (v : value) (o : object) : object :=
  if jsstring_eqb k (js "__proto__") then o else <[k := v]> o.

(** [o[k]]: the own property, else the inherited one, else undefined. *)
Definition obj_get (o : object) (k : jsstring) : value :=
  match o !! k with
  | Some v => v
  | None => if bool_decide (k ∈ object_prototype_names) then VObject else VUndefined
  end.

(** ** app-helper.ts *)

Module AppHelper.

(** [const [key, value] = line.trim().split(":")] *)
Definition key_value_of (line : jsstring) : jsstring * value :=
  match split COLON (trim line) with
  | key :: v :: _ => (key, VString v)
  | [key] => (key, VUndefined)
  | [] => (js "undefined", VUndefined)
  end.

(** The callback passed to [forEach]: its [return frontMatter] ends this call
    of the callback only, the iteration goes on with the next line. *)
Definition forEach_line (frontMatter : object) (line : jsstring) : object :=
  if jsstring_eqb line (js "---") then frontMatter
  else if key_value_test line then
    let '(key, v) := key_value_of line in obj_set key v frontMatter
  else frontMatter.

(** [getNoCacheFrontMatter(content)]; [None] is [null]. *)
Definition getNoCacheFrontMatter (content : jsstring) : option object :=
  let lines := split LF content in
  if negb (jsstring_eqb (hd [] lines) (js "---")) then None
  else Some (fold_left forEach_line (tl lines) ∅).

End AppHelper.

(** ** Errors *)

(** Modelled from the spec: [ExhaustiveError] of ./errors, which is not among
    the sources; an exhaustiveness violation that carries the unexpected
    value.  [TypeError] and [SyntaxError] are the built-in errors of a call on
    [null] and of [new RegExp] on a malformed pattern. *)
Inductive error : Type :=
| ExhaustiveError (v : jsstring)
| TypeError
| SyntaxError.

(** What a call yields: a value, or a thrown error (for an async function, a
    rejected promise). *)
Inductive result (A : Type) : Type :=
| Return (a : A)
| Throw (e : error).
Arguments Return {A} a.
Arguments Throw {A} e.

(** ** The DOM below a view's container *)

Inductive handler : Type :=
| OpenSettingTab (id : jsstring).   (* app.setting.open(); app.setting.openTabById(id) *)

#[warnings="-register-all"]
Inductive element : Type :=
| Element (cls : list jsstring) (text : jsstring) (onclick : option handler)
          (children : list element).

Definition classes (e : element) : list jsstring :=
  match e with Element cls _ _ _ => cls end.
Definition textContent (e : element) : jsstring :=
  match e with Element _ text _ _ => text end.
Definition children (e : element) : list element :=
  match e with Element _ _ _ ch => ch end.

(** The element matches the selector [.c]. *)
Definition has_class (c : jsstring) (e : element) : bool :=
  bool_decide (c ∈ classes e).

(** The elements of a subtree that match [.c]. *)
Fixpoint count_element (c : jsstring) (e : element) : nat :=
  match e with
  | Element _ _ _ ch =>
      ((if has_class c e then 1 else 0) + sum_list (map (count_element c) ch))%nat
  end.
Definition count (c : jsstring) (f : list element) : nat :=
  sum_list (map (count_element c) f).

(** Class list and text of an element. *)
Definition label (e : element) : list jsstring * jsstring :=
  (classes e, textContent e).

(** The labels of the elements of a subtree that match [.c], in document
    order. *)
Fixpoint labels_of_element (c : jsstring) (e : element)
    : list (list jsstring * jsstring) :=
  match e with
  | Element _ _ _ ch =>
      (if has_class c e then [label e] else []) ++ flat_map (labels_of_element c) ch
  end.
Definition labels_of (c : jsstring) (f : list element)
    : list (list jsstring * jsstring) :=
  flat_map (labels_of_element c) f.

(** [find(".c")], that is querySelector: the first descendant in document
    order that matches, or [None] for null. *)
Fixpoint find_element (c : jsstring) (e : element) : option element :=
  match e with
  | Element _ _ _ ch =>
      (fix go (f : list element) : option element :=
         match f with
         | [] => None
         | x :: r =>
             if has_class c x then Some x
             else match find_element c x with
                  | Some y => Some y
                  | None => go r
                  end
         end) ch
  end.
Definition find (c : jsstring) (f : list element) : option element :=
  find_element c (Element [] [] None f).

(** The forest after the element that [find(".c")] returns has been replaced,
    in place among its siblings, by the elements [g] makes of it; [None] when
    nothing matches. *)
Fixpoint replace_found_element (c : jsstring) (g : element -> list element)
    (e : element) : option element :=
  match e with
  | Element cls text h ch =>
      option_map (Element cls text h)
        ((fix go (f : list element) : option (list element) :=
            match f with
            | [] => None
            | x :: r =>
                if has_class c x then Some (g x ++ r)
                else match replace_found_element c g x with
                     | Some x' => Some (x' :: r)
                     | None => option_map (cons x) (go r)
                     end
            end) ch)
  end.
Definition replace_found (c : jsstring) (g : element -> list element)
    (f : list element) : option (list element) :=
  option_map children (replace_found_element c g (Element [] [] None f)).

(** [find(".c")?.remove()] *)
Definition find_remove (c : jsstring) (f : list element) : list element :=
  default f (replace_found c (fun _ => []) f).

(** [find(".c").insertAdjacentElement("beforebegin", el)]; [None] when [find]
    returns null and the call throws. *)
Definition find_insert_before (c : jsstring) (el : element) (f : list element)
    : option (list element) :=
  replace_found c (fun x => [el; x]) f.

(** [f'] is the forest [f] with one change: the first element of class [c]
    in document order stands no longer at its place among its siblings, the
    elements [g] makes of it stand there.  Nothing before it carries the
    class; its ancestors, which do not carry it either, and every other
    element are in [f'] as they are in [f]. *)
Inductive replaced_first (c : jsstring) (g : element -> list element)
    : list element -> list element -> Prop :=
| replaced_here before x after :
    count c before = 0%nat ->
    has_class c x = true ->
    replaced_first c g (before ++ x :: after) (before ++ g x ++ after)
| replaced_below before cls text h ch ch' after :
    count c before = 0%nat ->
    has_class c (Element cls text h ch) = false ->
    replaced_first c g ch ch' ->
    replaced_first c g (before ++ Element cls text h ch :: after)
                       (before ++ Element cls text h ch' :: after).

(** A view of the workspace: what lies below its [containerEl]. *)
Record ItemView : Type := { containerEl : list element }.

(** ** dayjs *)

(** A JavaScript number as this code meets it: an integer or NaN. *)
Inductive number : Type :=
| NaN
| Num (z : Z).

(** [n >= m] *)
Definition number_ge (n : number) (m : Z) : bool :=
  match n with
  | NaN => false
  | Num z => (m <=? z)%Z
  end.

(** [String(z)] for an integer. *)
Definition String_of_Z (z : Z) : jsstring := js (NilZero.string_of_int (Z.to_int z)).

(** [String(n)] *)
Definition String_of_number (n : number) : jsstring :=
  match n with
  | NaN => js "NaN"
  | Num z => String_of_Z z
  end.

(** The code units of the decimal text of an integer. *)
Definition is_sign_or_digit (c : char) : Prop := c = 45 \/ (48 <= c <= 57).

(** A dayjs object: its [$d] is an Invalid Date or an instant in milliseconds
    since the epoch. *)
Inductive Dayjs : Type :=
| InvalidDate
| Instant (ms : Z).

Definition isValid (d : Dayjs) : bool :=
  match d with
  | InvalidDate => false
  | Instant _ => true
  end.

(** [dayjs(n)] for a number of milliseconds: [new Date(n)] clips the range. *)
Definition dayjs_of_ms (ms : Z) : Dayjs :=
  if (Z.abs ms <=? 8640000000000000)%Z then Instant ms else InvalidDate.

(** dayjs's own [padStart(s, n, "0")]. *)
Definition pad_start (n : nat) (s : jsstring) : jsstring :=
  replicate (n - length s) 48 ++ s.

(** Year, month and day of the month of a day number counted from
    1970-01-01, in the proleptic Gregorian calendar. *)
Definition civil_from_days (days : Z) : Z * Z * Z :=
  (let z := days + 719468 in
   let era := z / 146097 in
   let doe := z - era * 146097 in
   let yoe := (doe - doe / 1460 + doe / 36524 - doe / 146096) / 365 in
   let doy := doe - (365 * yoe + yoe / 4 - yoe / 100) in
   let mp := (5 * doy + 2) / 153 in
   let d := doy - (153 * mp + 2) / 5 + 1 in
   let m := if mp <? 10 then mp + 3 else mp - 9 in
   let y := yoe + era * 400 + (if m <=? 2 then 1 else 0) in
   (y, m, d))%Z.

Section Dayjs.

(** [Date.prototype.getTimezoneOffset] of the host at an instant: minutes
    to add to local time to reach UTC. *)
Variable getTimezoneOffset : Z -> Z.

(** [utcOffset()]: [-Math.round(getTimezoneOffset() / 15) * 15] *)
Definition utcOffset (ms : Z) : Z :=
  (- ((2 * getTimezoneOffset ms + 15) / 30) * 15)%Z.

(** The wall clock of the host at an instant, in milliseconds. *)
Definition wall_clock (ms : Z) : Z := (ms + utcOffset ms * 60000)%Z.

(** [this.diff(that, "day")]: the difference in milliseconds, corrected by
    the difference of the two UTC offsets, divided by the milliseconds of
    a day and truncated towards zero; NaN when a side is invalid. *)
Definition diff_day (this that : Dayjs) : number :=
  match this, that with
  | Instant a, Instant b =>
      Num (Z.quot (a - b - (utcOffset b - utcOffset a) * 60000) 86400000)
  | _, _ => NaN
  end.

(** [d.format("YYYY-MM-DD")] in the local time of the host. *)
Definition format_YYYY_MM_DD (d : Dayjs) : jsstring :=
  match d with
  | InvalidDate => js "Invalid Date"
  | Instant ms =>
      let '(y, m, dd) :=
        civil_from_days ((ms - getTimezoneOffset ms * 60000) / 86400000)%Z in
      pad_start 4 (String_of_Z y) ++ js "-" ++ pad_start 2 (String_of_Z m)
      ++ js "-" ++ pad_start 2 (String_of_Z dd)
  end.

End Dayjs.

(** ** String.prototype.replace with a string pattern *)

Fixpoint starts_with (p s : jsstring) : bool :=
  match p, s with
  | [], _ => true
  | a :: p', b :: s' => (a =? b) && starts_with p' s'
  | _ :: _, [] => false
  end.

(** The text before and after the first occurrence of [pat] in [s]. *)
Fixpoint find_substring (pat s : jsstring) : option (jsstring * jsstring) :=
  if starts_with pat s then Some ([], drop (length pat) s)
  else match s with
       | [] => None
       | c :: r =>
           match find_substring pat r with
           | Some (before, after) => Some (c :: before, after)
           | None => None
           end
       end.

(** GetSubstitution without captures: [$$], [$&], [$`] and [$'] are
    expanded, any other text stands for itself. *)
Fixpoint substitution (rep before matched after : jsstring) : jsstring :=
  match rep with
  | [] => []
  | c :: r =>
      if c =? DOLLAR then
        match r with
        | d :: r' =>
            if d =? 36 then DOLLAR :: substitution r' before matched after
            else if d =? 38 then matched ++ substitution r' before matched after
            else if d =? 96 then before ++ substitution r' before matched after
            else if d =? 39 then after ++ substitution r' before matched after
            else c :: substitution r before matched after
        | [] => [c]
        end
      else c :: substitution r before matched after
  end.

(** [s.replace(pat, rep)]: only the first occurrence is replaced. *)
Definition replace (s pat rep : jsstring) : jsstring :=
  match find_substring pat s with
  | Some (before, after) => before ++ substitution rep before pat after ++ after
  | None => s
  end.

(** [t] is [s] with the first occurrence of [pat] replaced by [rep], and [s]
    itself when [pat] does not occur. *)
Definition first_occurrence_replaced (s pat rep t : jsstring) : Prop :=
  (exists b a,
      s = b ++ pat ++ a
      /\ (forall b' a', s = b' ++ pat ++ a' -> (length b <= length b')%nat)
      /\ t = b ++ rep ++ a)
  \/ ((forall b a, s <> b ++ pat ++ a) /\ t = s).

(** ** settings.ts *)

(** [Settings].  The two option fields hold whatever string the stored data
    has; [minNumberOfDaysToShowWarning] is taken to be an integer. *)
Record Settings : Type := {
  minNumberOfDaysToShowWarning : Z;
  messageTemplate : jsstring;
  showWarningIfDataIsNotFound : bool;
  triggerToUpdate : jsstring;
  dateToBeReferred : jsstring;
  frontMatterKey : jsstring;
  captureGroupPattern : jsstring;
  excludePrefixPathPatterns : list jsstring;
}.

Definition DEFAULT_SETTINGS : Settings := {|
  minNumberOfDaysToShowWarning := 180;
  messageTemplate := js "The content has been no updated for over ${numberOfDays} days";
  showWarningIfDataIsNotFound := false;
  triggerToUpdate := js "On open file";
  dateToBeReferred := js "Modified time";
  frontMatterKey := js "updated";
  captureGroupPattern := js "^// (?<date>[0-9]{4}/[0-9]{2}/[0-9]{2})";
  excludePrefixPathPatterns := [];
|}.

(** ** main.ts *)

Definition ADMONITOR_CLS : jsstring := js "old-note-admonitor__old-note-container".
Definition ADMONITOR_WARNING_CLS : jsstring :=
  js "old-note-admonitor__old-note-container__warning".
Definition ADMONITOR_ERR_CLS : jsstring :=
  js "old-note-admonitor__old-note-container__error".
Definition VIEW_HEADER_CLS : jsstring := js "view-header".

(** A file of the vault: its [stat.mtime] and what [cachedRead] returns. *)
Record TFile : Type := { mtime : Z; cachedRead : jsstring }.

(** [removeAdmonitor(markdownView)] *)
Definition removeAdmonitor (markdownView : ItemView) : ItemView :=
  {| containerEl := find_remove ADMONITOR_CLS (containerEl markdownView) |}.

(** The [switch] of [insertAdmonitor]: the class list of a kind, [None] for the
    [default] branch. *)
Definition kind_classes (type : jsstring) : option (list jsstring) :=
  if jsstring_eqb type (js "warning") then Some [ADMONITOR_CLS; ADMONITOR_WARNING_CLS]
  else if jsstring_eqb type (js "error") then Some [ADMONITOR_CLS; ADMONITOR_ERR_CLS]
  else None.

(** [insertAdmonitor(markdownView, text, type)]: the view afterwards and
    whether the call returned.  [type] is the string met at run time. *)
Definition insertAdmonitor (markdownView : ItemView) (text type : jsstring)
    : ItemView * result unit :=
  match kind_classes type with
  | None => (markdownView, Throw (ExhaustiveError type))
  | Some cls =>
      let el := Element cls text (Some (OpenSettingTab (js "obsidian-task-admonitor"))) [] in
      match find_insert_before VIEW_HEADER_CLS el (containerEl markdownView) with
      | Some f => ({| containerEl := f |}, Return tt)
      | None => (markdownView, Throw TypeError)
      end
  end.

Section Plugin.

(** The host: its time zone, what [dayjs(x)] makes of a string or an
    object, and [new RegExp(pattern, "g")], which throws on a malformed
    pattern ([None]) and else tells for every line
    [Array.from(line.matchAll(pattern)).first()?.groups?.date]. *)
Variable getTimezoneOffset : Z -> Z.
Variable dayjs : value -> Dayjs.
Variable RegExp_g : jsstring -> option (jsstring -> value).

Variable settings : Settings.

(** [findDate(file)]; [Return None] is a promise of [undefined]. *)
Definition findDate (file : TFile) : result (option Dayjs) :=
  let referred := dateToBeReferred settings in
  if jsstring_eqb referred (js "Modified time") then
    Return (Some (dayjs_of_ms (mtime file)))
  else if jsstring_eqb referred (js "Front matter") then
    let fm := AppHelper.getNoCacheFrontMatter (cachedRead file) in
    let df := match fm with
              | Some o => obj_get o (frontMatterKey settings)
              | None => VUndefined
              end in
    Return (if truthy df then Some (dayjs df) else None)
  else if jsstring_eqb referred (js "Capture group") then
    let content := cachedRead file in
    match RegExp_g (captureGroupPattern settings) with
    | None => Throw SyntaxError
    | Some groups_date =>
        let dc := hd VUndefined
                    (List.filter truthy (map groups_date (split LF content))) in
        Return (if truthy dc then Some (dayjs dc) else None)
    end
  else Throw (ExhaustiveError referred).

(** The [text] of lines 79 to 81. *)
Definition warning_text (numberOfDays : number) (lastUpdated : Dayjs) : jsstring :=
  replace
    (replace (messageTemplate settings) (js "${numberOfDays}")
             (String_of_number numberOfDays))
    (js "${date}") (format_YYYY_MM_DD getTimezoneOffset lastUpdated).

(** Lines 70 to 83 of [exec]: what follows once [lastUpdated] is bound, with
    [now] the reading of the clock by the second [dayjs()]. *)
Definition exec_lastUpdated (markdownView : ItemView)
    (lastUpdated : option Dayjs) (now : Z) : ItemView * result unit :=
  match lastUpdated with
  | None =>
      if showWarningIfDataIsNotFound settings then
        insertAdmonitor markdownView (js "The date was not found") (js "error")
      else (markdownView, Return tt)
  | Some lastUpdated =>
      let numberOfDays := diff_day getTimezoneOffset (Instant now) lastUpdated in
      if number_ge numberOfDays (minNumberOfDaysToShowWarning settings) then
        let text := warning_text numberOfDays lastUpdated in
        insertAdmonitor markdownView text (js "warning")
      else (markdownView, Return tt)
  end.

(** [exec(view)].  [markdownView] is what [getMarkdownViewInActiveLeaf()]
    returns, [now1] and [now2] are the readings of the clock by the two
    [dayjs()] calls of lines 69 and 77.  [lastUpdated] is bound to the
    first reading. *)
Definition exec {V : Type} (now1 now2 : Z) (markdownView : option ItemView)
    (view : option V) : option ItemView * result unit :=
  match markdownView, view with
  | Some markdownView, Some _ =>
      let markdownView := removeAdmonitor markdownView in
      let lastUpdated := Some (Instant now1) in
      let '(markdownView, r) := exec_lastUpdated markdownView lastUpdated now2 in
      (Some markdownView, r)
  | _, _ => (markdownView, Return tt)
  end.

End Plugin.

(** The settings with another way to the date. *)
Definition with_source (settings : Settings) (referred key pattern : jsstring) : Settings :=
  {| minNumberOfDaysToShowWarning := minNumberOfDaysToShowWarning settings;
     messageTemplate := messageTemplate settings;
     showWarningIfDataIsNotFound := showWarningIfDataIsNotFound settings;
     triggerToUpdate := triggerToUpdate settings;
     dateToBeReferred := referred;
     frontMatterKey := key;
     captureGroupPattern := pattern;
     excludePrefixPathPatterns := excludePrefixPathPatterns settings |}.

(** The candidate of a file: the truthy value under the key of its front
    matter, or the group [date] of the first line, in document order, where
    the pattern gives a truthy one. *)
Inductive candidate (RegExp_g : jsstring -> option (jsstring -> value))
    (settings : Settings) (file : TFile) : value -> Prop :=
| candidate_front_matter fm :
    dateToBeReferred settings = js "Front matter" ->
    AppHelper.getNoCacheFrontMatter (cachedRead file) = Some fm ->
    truthy (obj_get fm (frontMatterKey settings)) = true ->
    candidate RegExp_g settings file (obj_get fm (frontMatterKey settings))
| candidate_capture_group groups_date before line after :
    dateToBeReferred settings = js "Capture group" ->
    RegExp_g (captureGroupPattern settings) = Some groups_date ->
    split LF (cachedRead file) = before ++ line :: after ->
    Forall (fun l => truthy (groups_date l) = false) before ->
    truthy (groups_date line) = true ->
    candidate RegExp_g settings file (groups_date line).

(** ** A reference host

    A host to evaluate the plugin on: its clock is in UTC, its [dayjs] reads
    the shape year-month-day, white space around it aside, and takes every
    other argument for an Invalid Date, and its RegExp engine knows the
    pattern of [DEFAULT_SETTINGS].  The general statements below hold for
    every host. *)
Module ReferenceHost.

Definition getTimezoneOffset (_ : Z) : Z := 0%Z.

Definition digit (c : char) : option Z :=
  if (48 <=? c) && (c <=? 57) then Some (Z.of_N (c - 48)) else None.

Fixpoint digits (s : jsstring) (acc : Z) : option Z :=
  match s with
  | [] => Some acc
  | c :: r => match digit c with
              | Some d => digits r (10 * acc + d)%Z
              | None => None
              end
  end.

(** The day number of a calendar date, counted from 1970-01-01. *)
Definition days_from_civil (y m d : Z) : Z :=
  (let y := if m <=? 2 then y - 1 else y in
   let era := y / 400 in
   let yoe := y - era * 400 in
   let mp := if 2 <? m then m - 3 else m + 9 in
   let doy := (153 * mp + 2) / 5 + d - 1 in
   let doe := yoe * 365 + yoe / 4 - yoe / 100 + doy in
   era * 146097 + doe - 719468)%Z.

(** [new Date(y, m - 1, d)] in UTC: a year below 100 counts from 1900, a
    month outside the year and a day outside the month carry over. *)
Definition Date_of (y m d : Z) : Z :=
  (let y := if y <=? 99 then 1900 + y else y in
   let m0 := m - 1 in
   (days_from_civil (y + m0 / 12) (m0 mod 12 + 1) 1 + d - 1) * 86400000)%Z.

Definition is_separator (accepted : list char) (c : char) : bool :=
  bool_decide (c ∈ accepted).

(** Year, month and day of a text of the shape dddd?dd?dd. *)
Definition year_month_day (separators : list char) (s : jsstring)
    : option (Z * Z * Z) :=
  match s with
  | [y1; y2; y3; y4; s1; m1; m2; s2; d1; d2] =>
      if is_separator separators s1 && is_separator separators s2 then
        match digits [y1; y2; y3; y4] 0, digits [m1; m2] 0, digits [d1; d2] 0 with
        | Some y, Some m, Some d => Some (y, m, d)
        | _, _, _ => None
        end
      else None
  | _ => None
  end.

Definition dayjs (v : value) : Dayjs :=
  match v with
  | VString s =>
      match year_month_day [45; 47] (trim s) with
      | Some (y, m, d) => Instant (Date_of y m d)
      | None => InvalidDate
      end
  | _ => InvalidDate
  end.

(** The group [date] of [^// (?<date>[0-9]{4}/[0-9]{2}/[0-9]{2})] on a
    line. *)
Definition default_groups_date (line : jsstring) : value :=
  if starts_with (js "// ") line then
    let d := take 10 (drop 3 line) in
    if is_Some_dec (year_month_day [47] d) then VString d else VUndefined
  else VUndefined.

Definition RegExp_g (pattern : jsstring) : option (jsstring -> value) :=
  if jsstring_eqb pattern (captureGroupPattern DEFAULT_SETTINGS)
  then Some default_groups_date else None.

Definition findDate := findDate dayjs RegExp_g.
Definition exec_lastUpdated := exec_lastUpdated getTimezoneOffset.
Definition exec (settings : Settings) {V : Type} :=
  exec getTimezoneOffset settings (V := V).

End ReferenceHost.

(** ** Banners of a view *)

(** The banners a view hosts: class list and text of the elements that carry
    the banner class, in document order. *)
Definition banners (v : ItemView) : list (list jsstring * jsstring) :=
  labels_of ADMONITOR_CLS (containerEl v).

(** The view, if there is one, hosts at most one banner. *)
Definition single_banner (markdownView : option ItemView) : Prop :=
  match markdownView with
  | Some v => (length (banners v) <= 1)%nat
  | None => True
  end.

(** The text of a file or of a banner, line by line. *)
Definition text_of (lines : list String.string) : jsstring := join LF (map js lines).

(** ** The host's events and the life cycle of the plugin *)

(** The callbacks registered for events: the two arrow functions of
    [addListeners], and those of the host and of other plugins. *)
Inductive callback : Type :=
| ExecLeafView        (* (leaf) => { this.exec((leaf?.view as ItemView) || null) } *)
| ExecFile            (* (file) => { this.exec(file as TFile) } *)
| Other (n : nat).

(** An [EventRef]: an object with an identity of its own, the name of its
    event and its callback. *)
Record EventRef : Type := { ref_id : nat; ref_name : jsstring; ref_fn : callback }.

(** The callback is one of this plugin. *)
Definition is_plugin_callback (r : EventRef) : bool :=
  match ref_fn r with
  | Other _ => false
  | _ => true
  end.

(** What [loadData()] returns: [None] for null when nothing is stored, else
    the fields of a [Settings] object that the stored file holds. *)
Record Data : Type := {
  data_minNumberOfDaysToShowWarning : option Z;
  data_messageTemplate : option jsstring;
  data_showWarningIfDataIsNotFound : option bool;
  data_triggerToUpdate : option jsstring;
  data_dateToBeReferred : option jsstring;
  data_frontMatterKey : option jsstring;
  data_captureGroupPattern : option jsstring;
  data_excludePrefixPathPatterns : option (list jsstring);
}.

(** What [saveData(settings)] stores: every field of the object. *)
Definition Data_of (s : Settings) : Data := {|
  data_minNumberOfDaysToShowWarning := Some (minNumberOfDaysToShowWarning s);
  data_messageTemplate := Some (messageTemplate s);
  data_showWarningIfDataIsNotFound := Some (showWarningIfDataIsNotFound s);
  data_triggerToUpdate := Some (triggerToUpdate s);
  data_dateToBeReferred := Some (dateToBeReferred s);
  data_frontMatterKey := Some (frontMatterKey s);
  data_captureGroupPattern := Some (captureGroupPattern s);
  data_excludePrefixPathPatterns := Some (excludePrefixPathPatterns s);
|}.

(** [Object.assign({}, target, source)]: the fields of [source] go over those
    of [target]; a null [source] adds nothing. *)
Definition Object_assign (target : Settings) (source : option Data) : Settings :=
  match source with
  | None => target
  | Some d => {|
      minNumberOfDaysToShowWarning :=
        default (minNumberOfDaysToShowWarning target) (data_minNumberOfDaysToShowWarning d);
      messageTemplate := default (messageTemplate target) (data_messageTemplate d);
      showWarningIfDataIsNotFound :=
        default (showWarningIfDataIsNotFound target) (data_showWarningIfDataIsNotFound d);
      triggerToUpdate := default (triggerToUpdate target) (data_triggerToUpdate d);
      dateToBeReferred := default (dateToBeReferred target) (data_dateToBeReferred d);
      frontMatterKey := default (frontMatterKey target) (data_frontMatterKey d);
      captureGroupPattern :=
        default (captureGroupPattern target) (data_captureGroupPattern d);
      excludePrefixPathPatterns :=
        default (excludePrefixPathPatterns target) (data_excludePrefixPathPatterns d);
    |}
  end.

(** The part of the app the plugin works on: the registrations of
    [app.workspace] and of [app.vault], each in the order of registration,
    the identity of the next [EventRef], what
    [workspace.getActiveViewOfType(ItemView)] returns, the stored data and
    the number of settings tabs added. *)
Record App : Type := {
  workspace : list EventRef;
  vault : list EventRef;
  next_ref : nat;
  activeView : option ItemView;
  data : option Data;
  settingTabs : nat;
}.

Definition set_workspace (w : list EventRef) (app : App) : App :=
  {| workspace := w; vault := vault app; next_ref := next_ref app;
     activeView := activeView app; data := data app; settingTabs := settingTabs app |}.
Definition set_vault (v : list EventRef) (app : App) : App :=
  {| workspace := workspace app; vault := v; next_ref := next_ref app;
     activeView := activeView app; data := data app; settingTabs := settingTabs app |}.
Definition set_next_ref (n : nat) (app : App) : App :=
  {| workspace := workspace app; vault := vault app; next_ref := n;
     activeView := activeView app; data := data app; settingTabs := settingTabs app |}.
Definition set_activeView (view : option ItemView) (app : App) : App :=
  {| workspace := workspace app; vault := vault app; next_ref := next_ref app;
     activeView := view; data := data app; settingTabs := settingTabs app |}.
Definition set_data (d : option Data) (app : App) : App :=
  {| workspace := workspace app; vault := vault app; next_ref := next_ref app;
     activeView := activeView app; data := d; settingTabs := settingTabs app |}.
Definition set_settingTabs (n : nat) (app : App) : App :=
  {| workspace := workspace app; vault := vault app; next_ref := next_ref app;
     activeView := activeView app; data := data app; settingTabs := n |}.

(** [events.on(name, fn)]: a new [EventRef] goes to the end of the
    registrations and is returned. *)
Definition on (name : jsstring) (fn : callback) (next : nat) (events : list EventRef)
    : EventRef * list EventRef :=
  let ref := {| ref_id := next; ref_name := name; ref_fn := fn |} in
  (ref, events ++ [ref]).

(** [app.workspace.on(name, fn)] and [app.vault.on(name, fn)] *)
Definition workspace_on (name : jsstring) (fn : callback) (app : App) : EventRef * App :=
  let '(ref, events) := on name fn (next_ref app) (workspace app) in
  (ref, set_next_ref (S (next_ref app)) (set_workspace events app)).
Definition vault_on (name : jsstring) (fn : callback) (app : App) : EventRef * App :=
  let '(ref, events) := on name fn (next_ref app) (vault app) in
  (ref, set_next_ref (S (next_ref app)) (set_vault events app)).

(** The state of the plugin object: [this.settings], [this.fileOpenHandler]
    and [this.fileSaveHandler]; [None] is a field still undefined. *)
Record OldNoteAdmonitorPlugin : Type := {
  settings : Settings;
  fileOpenHandler : option EventRef;
  fileSaveHandler : option EventRef;
}.

(** The handles the plugin holds. *)
Definition handlers (p : OldNoteAdmonitorPlugin) : list EventRef :=
  option_list (fileOpenHandler p) ++ option_list (fileSaveHandler p).

Section LifeCycle.

Variable getTimezoneOffset : Z -> Z.

(** The host: what [offref(undefined)] does, return or throw.  With a handle
    it takes the registration of that identity away, and does nothing when
    there is none. *)
Variable offref_undefined : result unit.

Definition offref (ref : option EventRef) (events : list EventRef)
    : list EventRef * result unit :=
  match ref with
  | Some ref =>
      (List.filter (fun r => negb (ref_id r =? ref_id ref)%nat) events, Return tt)
  | None => (events, offref_undefined)
  end.

(** [addListeners()] *)
Definition addListeners (p : OldNoteAdmonitorPlugin) (app : App)
    : OldNoteAdmonitorPlugin * App :=
  let '(ref, app) := workspace_on (js "active-leaf-change") ExecLeafView app in
  let p := {| settings := settings p; fileOpenHandler := Some ref;
              fileSaveHandler := fileSaveHandler p |} in
  if jsstring_eqb (triggerToUpdate (settings p)) (js "On open or save file") then
    let '(ref, app) := vault_on (js "modify") ExecFile app in
    ({| settings := settings p; fileOpenHandler := fileOpenHandler p;
        fileSaveHandler := Some ref |}, app)
  else (p, app).

(** [removeListeners()] *)
Definition removeListeners (p : OldNoteAdmonitorPlugin) (app : App) : App * result unit :=
  match offref (fileOpenHandler p) (workspace app) with
  | (_, Throw e) => (app, Throw e)
  | (events, Return _) =>
      let app := set_workspace events app in
      match offref (fileSaveHandler p) (vault app) with
      | (_, Throw e) => (app, Throw e)
      | (events, Return _) => (set_vault events app, Return tt)
      end
  end.

(** [loadSettings()]: the settings it assigns. *)
Definition loadSettings (app : App) : Settings :=
  Object_assign DEFAULT_SETTINGS (data app).

(** [this.exec(this.appHelper.getActiveFile())], with the two readings of
    the clock: both [getActiveFile()] and [getMarkdownViewInActiveLeaf()]
    return the active view. *)
Definition exec_active_view (p : OldNoteAdmonitorPlugin) (now1 now2 : Z) (app : App)
    : App * result unit :=
  let '(view, r) :=
    exec getTimezoneOffset (settings p) now1 now2 (activeView app) (activeView app) in
  (set_activeView view app, r).

(** [saveSettings()] *)
Definition saveSettings (p : OldNoteAdmonitorPlugin) (now1 now2 : Z) (app : App)
    : OldNoteAdmonitorPlugin * App * result unit :=
  let app := set_data (Some (Data_of (settings p))) app in
  match removeListeners p app with
  | (app, Throw e) => (p, app, Throw e)
  | (app, Return _) =>
      let '(p, app) := addListeners p app in
      let '(app, r) := exec_active_view p now1 now2 app in
      (p, app, r)
  end.

(** [onload()], on the plugin object as its constructor leaves it. *)
Definition onload (now1 now2 : Z) (app : App)
    : OldNoteAdmonitorPlugin * App * result unit :=
  let p := {| settings := loadSettings app; fileOpenHandler := None;
              fileSaveHandler := None |} in
  let app := set_settingTabs (S (settingTabs app)) app in
  match exec_active_view p now1 now2 app with
  | (app, Throw e) => (p, app, Throw e)
  | (app, Return _) =>
      let '(p, app) := addListeners p app in
      (p, app, Return tt)
  end.

(** [onunload()] *)
Definition onunload (p : OldNoteAdmonitorPlugin) (app : App) : App * result unit :=
  removeListeners p app.

End LifeCycle.

(** The registrations of this plugin and those of others. *)
Definition plugin_listeners (events : list EventRef) : list EventRef :=
  List.filter is_plugin_callback events.
Definition other_listeners (events : list EventRef) : list EventRef :=
  List.filter (fun r => negb (is_plugin_callback r)) events.

(** The plugin keeps track of its registrations: every identity in use lies
    below the next one, no registration of another shares the identity of a
    handle, and the registrations of the plugin at the workspace and at the
    vault are those of its two handles. *)
Definition tracked (p : OldNoteAdmonitorPlugin) (app : App) : Prop :=
  Forall (fun r => (ref_id r < next_ref app)%nat) (workspace app ++ vault app ++ handlers p)
  /\ Forall (fun r => is_plugin_callback r = false ->
                      Forall (fun h => ref_id r <> ref_id h) (handlers p))
            (workspace app ++ vault app)
  /\ Forall (fun r => is_plugin_callback r = true -> fileOpenHandler p = Some r)
            (workspace app)
  /\ Forall (fun r => is_plugin_callback r = true -> fileSaveHandler p = Some r)
            (vault app).

(** The plugin listens as its settings say: one registration for
    [active-leaf-change] at the workspace, held in [fileOpenHandler], and one
    for [modify] at the vault, held in [fileSaveHandler], exactly when the
    trigger is [On open or save file]. *)
Definition listening (p : OldNoteAdmonitorPlugin) (app : App) : Prop :=
  (exists ref,
      fileOpenHandler p = Some ref
      /\ ref_name ref = js "active-leaf-change" /\ ref_fn ref = ExecLeafView
      /\ plugin_listeners (workspace app) = [ref])
  /\ if jsstring_eqb (triggerToUpdate (settings p)) (js "On open or save file") then
       exists ref,
         fileSaveHandler p = Some ref
         /\ ref_name ref = js "modify" /\ ref_fn ref = ExecFile
         /\ plugin_listeners (vault app) = [ref]
     else plugin_listeners (vault app) = [].

(** No call of [offref] gets an undefined handle, or the host lets it pass. *)
Definition offref_returns (offref_undefined : result unit) (p : OldNoteAdmonitorPlugin)
    : Prop :=
  (fileOpenHandler p = None \/ fileSaveHandler p = None) -> offref_undefined = Return tt.

(** * Properties *)

(** ** Strings *)

Lemma split_no_sep sep s : sep ∉ s -> split sep s = [s].
Proof.
  induction s as [|c r IH]; intros Hn; simpl; [done|].
  apply not_elem_of_cons in Hn as [Hc Hr].
  destruct (N.eqb_spec c sep) as [->|_]; [done|]. by rewrite IH.
Qed.

Lemma split_app_sep sep k r : sep ∉ k -> split sep (k ++ sep :: r) = k :: split sep r.
Proof.
  induction k as [|c k IH]; intros Hn; simpl.
  - by rewrite N.eqb_refl.
  - apply not_elem_of_cons in Hn as [Hc Hk].
    destruct (N.eqb_spec c sep) as [->|_]; [done|]. by rewrite IH.
Qed.

Lemma split_join sep seg segs :
  Forall (fun l => sep ∉ l) (seg :: segs) -> split sep (join sep (seg :: segs)) = seg :: segs.
Proof.
  revert seg. induction segs as [|s2 segs IH]; intros seg Hall.
  - simpl. apply split_no_sep. by inversion Hall.
  - inversion Hall as [|? ? Hseg Hrest]; subst.
    change (join sep (seg :: s2 :: segs)) with (seg ++ sep :: join sep (s2 :: segs)).
    rewrite split_app_sep by done. by rewrite IH.
Qed.

(** ** The pattern of a front-matter line *)

Lemma key_value_test_cons c rest :
  key_value_test (c :: rest) = key_value_here (c :: rest) || key_value_test rest.
Proof. destruct rest as [|c2 [|c3 [|c4 r]]]; reflexivity. Qed.

Lemma key_value_test_shape line :
  key_value_test line = true <-> has_key_value_shape line.
Proof.
  split.
  - induction line as [|c rest IH]; [discriminate|].
    rewrite key_value_test_cons. intros [Hhere|Hrest]%orb_true_iff.
    + destruct rest as [|c2 [|c3 [|c4 r]]]; try discriminate.
      simpl in Hhere.
      apply andb_true_iff in Hhere as [Hhere H4].
      apply andb_true_iff in Hhere as [Hhere H3].
      apply andb_true_iff in Hhere as [H1 H2].
      apply N.eqb_eq in H2, H3. subst.
      exists [], c, c4, r. split; [reflexivity|].
      split; by apply negb_true_iff.
    + destruct (IH Hrest) as (pre & c1 & c2 & post & -> & H1 & H2).
      by exists (c :: pre), c1, c2, post.
  - intros (pre & c1 & c2 & post & -> & H1 & H2).
    induction pre as [|p pre IH].
    + simpl. by rewrite H1, H2.
    + change ((p :: pre) ++ c1 :: COLON :: SPACE :: c2 :: post)
        with (p :: (pre ++ c1 :: COLON :: SPACE :: c2 :: post)).
      rewrite key_value_test_cons, IH. apply orb_true_r.
Qed.

Lemma matches_plus_dot s :
  matches (RPlus RDot) s -> s <> [] /\ Forall (fun c => is_line_terminator c = false) s.
Proof.
  intros H. remember (RPlus RDot) as r eqn:Hr.
  induction H as [| |r s H _|r s1 s2 H1 _ H2 IH2|]; try discriminate.
  - injection Hr as ->. inversion H; subst. split; [done|]. by repeat constructor.
  - injection Hr as ->. inversion H1; subst.
    destruct (IH2 eq_refl) as [Hne Hall]. split; [done|]. by constructor.
Qed.

(** The computed test is the test of the regular expression [/.+: .+/]. *)
Lemma key_value_test_regex line :
  key_value_test line = true <-> regex_test key_value_regex line.
Proof.
  rewrite key_value_test_shape. split.
  - intros (pre & c1 & c2 & post & -> & H1 & H2).
    exists pre, [c1; COLON; SPACE; c2], post. split; [reflexivity|].
    apply (MSeq _ _ [c1] [COLON; SPACE; c2]); [by apply MPlus1, MDot|].
    apply (MSeq _ _ [COLON] [SPACE; c2]); [constructor|].
    apply (MSeq _ _ [SPACE] [c2]); [constructor|]. by apply MPlus1, MDot.
  - intros (pre & m & post & -> & Hm).
    inversion Hm as [| | | |? ? s1 m2 Hs1 Hm2]; subst.
    inversion Hm2 as [| | | |? ? s2 m3 Hs2 Hm3]; subst.
    inversion Hm3 as [| | | |? ? s3 s4 Hs3 Hs4]; subst.
    inversion Hs2; subst. inversion Hs3; subst.
    apply matches_plus_dot in Hs1 as [Hne1 Hall1], Hs4 as [Hne4 Hall4].
    destruct (exists_last Hne1) as (s1' & c1 & ->).
    destruct s4 as [|c2 s4']; [done|].
    apply Forall_app in Hall1 as [_ Hc1]. inversion Hc1; subst.
    inversion Hall4; subst.
    exists (pre ++ s1'), c1, c2, (s4' ++ post). split; [|done].
    by rewrite <- !app_assoc.
Qed.

(** ** Front matter *)

Section FrontMatter.
Import AppHelper.

Lemma key_value_test_not_delimiter line :
  key_value_test line = true -> jsstring_eqb line (js "---") = false.
Proof.
  intros H. unfold jsstring_eqb. case_bool_decide as Heq; [|done].
  subst. discriminate.
Qed.

Lemma forEach_line_skip o line : key_value_test line = false -> forEach_line o line = o.
Proof. intros H. unfold forEach_line. rewrite H. by destruct (jsstring_eqb _ _). Qed.

Lemma forEach_line_key_value o line :
  key_value_test line = true ->
  forEach_line o line = obj_set (key_value_of line).1 (key_value_of line).2 o.
Proof.
  intros H. unfold forEach_line.
  rewrite (key_value_test_not_delimiter _ H), H. by destruct (key_value_of line).
Qed.

Lemma obj_set_lookup k w o k' v :
  obj_set k w o !! k' = Some v -> (k' = k /\ v = w) \/ o !! k' = Some v.
Proof.
  unfold obj_set. destruct (jsstring_eqb _ _); [by right|].
  destruct (decide (k = k')) as [->|Hne].
  - rewrite lookup_insert_eq. intros [= ->]. by left.
  - rewrite lookup_insert_ne by done. by right.
Qed.

(** Every entry of the folded object was there before or comes from a line
    that passes the test. *)
Lemma fold_forEach_line_lookup lines o k v :
  fold_left forEach_line lines o !! k = Some v ->
  o !! k = Some v
  \/ exists line, line ∈ lines /\ key_value_test line = true /\ key_value_of line = (k, v).
Proof.
  revert o. induction lines as [|l lines IH]; intros o H; [by left|].
  simpl in H. apply IH in H as [H|(line & Hin & Ht & Hkv)].
  - destruct (key_value_test l) eqn:Ht.
    + rewrite forEach_line_key_value in H by done.
      apply obj_set_lookup in H as [[-> ->]|H]; [|by left].
      right. exists l. split; [by left|]. split; [done|]. by destruct (key_value_of l).
    + rewrite forEach_line_skip in H by done. by left.
  - right. exists line. split; [by right|done].
Qed.

Lemma key_value_of_split line k v rest :
  trim line = k ++ COLON :: v ++ rest -> COLON ∉ k -> COLON ∉ v ->
  rest = [] \/ (exists r, rest = COLON :: r) ->
  key_value_of line = (k, VString v).
Proof.
  intros Ht Hk Hv Hrest. unfold key_value_of. rewrite Ht, split_app_sep by done.
  destruct Hrest as [->|[r ->]].
  - by rewrite app_nil_r, split_no_sep.
  - by rewrite split_app_sep.
Qed.

(** A delimiter line is passed over, the lines after it are read like those
    before it. *)
Lemma fold_forEach_line_delimiter before after o :
  fold_left forEach_line (before ++ js "---" :: after) o
  = fold_left forEach_line after (fold_left forEach_line before o).
Proof. by rewrite fold_left_app. Qed.

(** The text that begins with a delimiter line is read line by line to its
    end. *)
Lemma getNoCacheFrontMatter_lines body :
  Forall (fun l => LF ∉ l) body ->
  getNoCacheFrontMatter (join LF (js "---" :: body))
  = Some (fold_left forEach_line body ∅).
Proof.
  intros Hbody. unfold getNoCacheFrontMatter. rewrite split_join; [done|].
  constructor; [compute_done|done].
Qed.

End FrontMatter.

(** C10: getNoCacheFrontMatter records an entry for a line only when the line
    matches [.+: .+], that is when it holds a colon immediately followed by a
    space with at least one code unit that [.] accepts on each side.  Every
    entry of the returned object comes from such a line of the text; a line
    without that shape leaves the object as it is, so the lines [key:value]
    and [key: ] produce no entry. *)
Theorem front_matter_entry_only_from_key_value_line
    (content : jsstring) (fm : object) (k : jsstring) (v : value) :
  AppHelper.getNoCacheFrontMatter content = Some fm ->
  fm !! k = Some v ->
  (exists line,
      line ∈ tl (split LF content)
      /\ regex_test key_value_regex line
      /\ has_key_value_shape line
      /\ AppHelper.key_value_of line = (k, v))
  /\ (forall (o : object) line,
        ~ has_key_value_shape line -> AppHelper.forEach_line o line = o)
  /\ AppHelper.getNoCacheFrontMatter (text_of ["---"; "key:value"; "key: "; "---"])
     = Some ∅.
Proof.
  intros Hfm Hk. split; [|split].
  - unfold AppHelper.getNoCacheFrontMatter in Hfm.
    destruct (negb _); [discriminate|]. injection Hfm as <-.
    apply fold_forEach_line_lookup in Hk as [Hk|(line & Hin & Ht & Hkv)].
    + by rewrite lookup_empty in Hk.
    + exists line. split; [done|]. split; [by apply key_value_test_regex|].
      split; [by apply key_value_test_shape|done].
  - intros o line Hn. apply forEach_line_skip.
    destruct (key_value_test line) eqn:Ht; [|done].
    by apply key_value_test_shape in Ht.
  - reflexivity.
Qed.

Lemma front_matter_entry_only_from_key_value_line_witness :
  let content := text_of ["---"; "title: note"; "key:value"; "---"] in
  let fm : object := {[ js "title" := VString (js " note") ]} in
  AppHelper.getNoCacheFrontMatter content = Some fm
  /\ fm !! js "title" = Some (VString (js " note"))
  /\ exists line,
      line ∈ tl (split LF content)
      /\ regex_test key_value_regex line
      /\ has_key_value_shape line
      /\ AppHelper.key_value_of line = (js "title", VString (js " note")).
Proof.
  split; [reflexivity|]. split; [reflexivity|].
  apply (front_matter_entry_only_from_key_value_line
           (text_of ["---"; "title: note"; "key:value"; "---"])
           {[ js "title" := VString (js " note") ]}); reflexivity.
Defined.

(** C4, as the claim states it, fails: the value recorded for
    [updated: 2024-01-01] is not the trimmed text [2024-01-01], it keeps the
    space that follows the colon. *)
Lemma front_matter_value_not_trimmed :
  AppHelper.getNoCacheFrontMatter (text_of ["---"; "updated: 2024-01-01"; "---"; ""])
  = Some {[ js "updated" := VString (js " 2024-01-01") ]}
  /\ AppHelper.getNoCacheFrontMatter (text_of ["---"; "updated: 2024-01-01"; "---"; ""])
     <> Some {[ js "updated" := VString (js "2024-01-01") ]}.
Proof.
  split; [reflexivity|].
  intros H. apply (f_equal (fun o => o ≫= (.!! js "updated"))) in H.
  vm_compute in H. discriminate.
Qed.

(** C4, amended: for a line of the shape [key: value] the line as a whole is
    trimmed and then cut at every colon; the key is the text before the first
    colon and the value the text between the first and the second colon (or
    up to the end), neither of them trimmed again.  So the text
    [---\nupdated: 2024-01-01\n---\n] gives exactly the mapping from
    [updated] to [ 2024-01-01], the space after the colon kept, and the line
    [key: a: b] gives the entry from [key] to [ a], what follows the second
    colon dropped. *)
Theorem front_matter_entry_is_cut_of_trimmed_line
    (o : object) (line k v rest : jsstring) :
  key_value_test line = true ->
  trim line = k ++ COLON :: v ++ rest ->
  COLON ∉ k -> COLON ∉ v ->
  rest = [] \/ (exists r, rest = COLON :: r) ->
  AppHelper.forEach_line o line = obj_set k (VString v) o
  /\ AppHelper.getNoCacheFrontMatter (text_of ["---"; "updated: 2024-01-01"; "---"; ""])
     = Some {[ js "updated" := VString (js " 2024-01-01") ]}
  /\ AppHelper.getNoCacheFrontMatter (text_of ["---"; "key: a: b"; "---"])
     = Some {[ js "key" := VString (js " a") ]}.
Proof.
  intros Ht Htrim Hk Hv Hrest. split; [|split; reflexivity].
  rewrite forEach_line_key_value by done.
  by rewrite (key_value_of_split line k v rest).
Qed.

Lemma front_matter_entry_is_cut_of_trimmed_line_witness :
  let line := js "  key : a b :c  " in
  key_value_test line = true
  /\ trim line = js "key " ++ COLON :: js " a b " ++ js ":c"
  /\ AppHelper.forEach_line ∅ line = obj_set (js "key ") (VString (js " a b ")) ∅.
Proof.
  split; [reflexivity|]. split; [reflexivity|].
  apply (front_matter_entry_is_cut_of_trimmed_line
           ∅ (js "  key : a b :c  ") (js "key ") (js " a b ") (js ":c")).
  - reflexivity.
  - reflexivity.
  - compute_done.
  - compute_done.
  - right. by exists (js "c").
Defined.

(** C3: the closing delimiter does not end the extraction.  The callback of
    [forEach] returns at a line [---] and the iteration goes on, so the lines
    after a delimiter are read like those before it: the line [b: 2] after
    the closing delimiter contributes an entry.  A text without closing
    delimiter gives what its lines hold. *)
Theorem front_matter_reads_past_closing_delimiter :
  (forall before after o,
      fold_left AppHelper.forEach_line (before ++ js "---" :: after) o
      = fold_left AppHelper.forEach_line after
          (fold_left AppHelper.forEach_line before o))
  /\ AppHelper.getNoCacheFrontMatter (text_of ["---"; "a: 1"; "---"; "b: 2"])
     = Some (<[ js "b" := VString (js " 2") ]> {[ js "a" := VString (js " 1") ]})
  /\ AppHelper.getNoCacheFrontMatter (text_of ["---"; "a: 1"; "---"])
     = Some {[ js "a" := VString (js " 1") ]}
  /\ AppHelper.getNoCacheFrontMatter (text_of ["---"; "a: 1"])
     = Some {[ js "a" := VString (js " 1") ]}.
Proof.
  split; [apply fold_forEach_line_delimiter|]. repeat split.
Qed.

(** ** The DOM *)

Lemma element_forest_ind (P : element -> Prop) :
  (forall cls text h ch, Forall P ch -> P (Element cls text h ch)) ->
  forall e, P e.
Proof.
  intros H. fix rec 1. intros [cls text h ch]. apply H.
  induction ch as [|x r IH]; constructor; [apply rec|exact IH].
Qed.

Lemma count_cons c x r : count c (x :: r) = (count_element c x + count c r)%nat.
Proof. reflexivity. Qed.

Lemma count_app c a b : count c (a ++ b) = (count c a + count c b)%nat.
Proof.
  induction a as [|x a IH]; [reflexivity|].
  change ((x :: a) ++ b) with (x :: (a ++ b)). rewrite !count_cons, IH. lia.
Qed.

Lemma count_element_eq c e :
  count_element c e = ((if has_class c e then 1 else 0) + count c (children e))%nat.
Proof. by destruct e. Qed.

Lemma replace_found_cons c g x r :
  replace_found c g (x :: r) =
  if has_class c x then Some (g x ++ r)
  else match replace_found_element c g x with
       | Some x' => Some (x' :: r)
       | None => option_map (cons x) (replace_found c g r)
       end.
Proof.
  unfold replace_found. simpl. destruct (has_class c x); [done|].
  destruct (replace_found_element c g x); [done|].
  match goal with |- context [option_map (cons x) ?t] => by destruct t end.
Qed.

Lemma replace_found_element_eq c g e :
  replace_found_element c g e =
  option_map (Element (classes e) (textContent e)
                (match e with Element _ _ h _ => h end))
             (replace_found c g (children e)).
Proof.
  destruct e as [cls text h ch]. unfold replace_found. simpl.
  match goal with |- option_map _ ?t = _ => by destruct t end.
Qed.

Lemma replace_found_element_classes c g e e' :
  replace_found_element c g e = Some e' -> classes e' = classes e.
Proof.
  rewrite replace_found_element_eq. destruct (replace_found c g (children e)); [|done].
  by intros [= <-].
Qed.

Lemma has_class_classes c e e' : classes e' = classes e -> has_class c e' = has_class c e.
Proof. unfold has_class. by intros ->. Qed.

(** Nothing is found exactly when no element carries the class. *)
Lemma replace_found_None c g :
  (forall e, replace_found_element c g e = None <-> count c (children e) = 0%nat)
  /\ (forall f, replace_found c g f = None <-> count c f = 0%nat).
Proof.
  assert (Hf : forall f,
             Forall (fun e => replace_found_element c g e = None
                              <-> count c (children e) = 0%nat) f ->
             (replace_found c g f = None <-> count c f = 0%nat)).
  { induction 1 as [|x r Hx _ IH]; [done|].
    rewrite replace_found_cons, count_cons, count_element_eq.
    destruct (has_class c x); [split; [done|lia]|].
    destruct (replace_found_element c g x) eqn:Hrx.
    - split; [done|]. intros H0.
      assert (count c (children x) = 0%nat) as Hc by lia.
      by apply Hx in Hc.
    - assert (count c (children x) = 0%nat) as -> by by apply Hx.
      destruct (replace_found c g r); simpl; split; intros H0; try done.
      + assert (count c r = 0%nat) as Hr0 by lia. by apply IH in Hr0.
      + assert (count c r = 0%nat) as Hr0 by by apply IH. lia. }
  assert (He : forall e, replace_found_element c g e = None
                         <-> count c (children e) = 0%nat).
  { induction e as [cls text h ch IH] using element_forest_ind.
    rewrite replace_found_element_eq. simpl. rewrite <- (Hf ch IH).
    by destruct (replace_found c g ch). }
  split; [exact He|]. intros f. apply Hf, Forall_forall. auto.
Qed.

Lemma labels_of_cons c x r :
  labels_of c (x :: r) = labels_of_element c x ++ labels_of c r.
Proof. reflexivity. Qed.

Lemma labels_of_app c a b : labels_of c (a ++ b) = labels_of c a ++ labels_of c b.
Proof. apply flat_map_app. Qed.

Lemma labels_of_element_eq c e :
  labels_of_element c e
  = (if has_class c e then [label e] else []) ++ labels_of c (children e).
Proof. by destruct e. Qed.

Lemma length_labels_of c :
  (forall e, length (labels_of_element c e) = count_element c e)
  /\ (forall f, length (labels_of c f) = count c f).
Proof.
  assert (Hf : forall f,
             Forall (fun e => length (labels_of_element c e) = count_element c e) f ->
             length (labels_of c f) = count c f).
  { induction 1 as [|x r Hx _ IH]; [done|].
    by rewrite labels_of_cons, count_cons, length_app, Hx, IH. }
  assert (He : forall e, length (labels_of_element c e) = count_element c e).
  { induction e as [cls text h ch IH] using element_forest_ind.
    rewrite labels_of_element_eq, count_element_eq, length_app.
    cbn [children]. rewrite (Hf ch IH). by destruct (has_class _ _). }
  split; [exact He|]. intros f. apply Hf, Forall_forall. auto.
Qed.

(** What a replacement does to the elements of a class: those of the element
    found go, those of what is made of it come in their place. *)
Lemma replace_found_labels c g c' :
  (forall e e', replace_found_element c g e = Some e' ->
     exists x l1 l2, has_class c x = true
       /\ labels_of_element c' e = l1 ++ labels_of_element c' x ++ l2
       /\ labels_of_element c' e' = l1 ++ labels_of c' (g x) ++ l2)
  /\ (forall f f', replace_found c g f = Some f' ->
        exists x l1 l2, has_class c x = true
          /\ labels_of c' f = l1 ++ labels_of_element c' x ++ l2
          /\ labels_of c' f' = l1 ++ labels_of c' (g x) ++ l2).
Proof.
  set (Pe := fun e => forall e', replace_found_element c g e = Some e' ->
     exists x l1 l2, has_class c x = true
       /\ labels_of_element c' e = l1 ++ labels_of_element c' x ++ l2
       /\ labels_of_element c' e' = l1 ++ labels_of c' (g x) ++ l2).
  assert (Hf : forall f, Forall Pe f -> forall f', replace_found c g f = Some f' ->
        exists x l1 l2, has_class c x = true
          /\ labels_of c' f = l1 ++ labels_of_element c' x ++ l2
          /\ labels_of c' f' = l1 ++ labels_of c' (g x) ++ l2).
  { induction 1 as [|y r Hy _ IH]; intros f'; [done|].
    rewrite replace_found_cons. destruct (has_class c y) eqn:Hcy.
    - intros [= <-]. exists y, [], (labels_of c' r). split; [done|].
      by rewrite labels_of_app, labels_of_cons.
    - destruct (replace_found_element c g y) as [y'|] eqn:Hry.
      + intros [= <-]. destruct (Hy y' Hry) as (x & l1 & l2 & Hx & H1 & H2).
        exists x, l1, (l2 ++ labels_of c' r). split; [done|].
        rewrite !labels_of_cons, H1, H2. by rewrite <- !app_assoc.
      + destruct (replace_found c g r) as [r'|]; [|done]. intros [= <-].
        destruct (IH r' eq_refl) as (x & l1 & l2 & Hx & H1 & H2).
        exists x, (labels_of_element c' y ++ l1), l2. split; [done|].
        rewrite !labels_of_cons, H1, H2. by rewrite <- !app_assoc. }
  assert (He : forall e, Pe e).
  { induction e as [cls text h ch IH] using element_forest_ind. intros e'.
    rewrite replace_found_element_eq. cbn [classes textContent children].
    destruct (replace_found c g ch) as [ch'|] eqn:Hch; [|done]. intros [= <-].
    destruct (Hf ch IH ch' Hch) as (x & l1 & l2 & Hx & H1 & H2).
    exists x, ((if has_class c' (Element cls text h ch) then [(cls, text)] else []) ++ l1), l2.
    split; [done|].
    rewrite (labels_of_element_eq c' (Element cls text h ch)),
      (labels_of_element_eq c' (Element cls text h ch')).
    unfold has_class, label. cbn [children classes textContent].
    rewrite H1, H2. by rewrite <- !app_assoc. }
  split; [exact He|]. intros f. apply Hf, Forall_forall. auto.
Qed.

(** Removing the element of class [a] that was inserted before the first
    element of class [hd] gives back a forest that held no element of class
    [a]. *)
Lemma remove_inserted a hd el :
  has_class a el = true ->
  (forall e e', count a (children e) = 0%nat ->
     replace_found_element hd (fun x => [el; x]) e = Some e' ->
     replace_found_element a (fun _ => []) e' = Some e)
  /\ (forall f f', count a f = 0%nat ->
        replace_found hd (fun x => [el; x]) f = Some f' ->
        replace_found a (fun _ => []) f' = Some f).
Proof.
  intros Hel.
  set (Pe := fun e => forall e', count a (children e) = 0%nat ->
     replace_found_element hd (fun x => [el; x]) e = Some e' ->
     replace_found_element a (fun _ => []) e' = Some e).
  assert (Hf : forall f, Forall Pe f -> forall f', count a f = 0%nat ->
        replace_found hd (fun x => [el; x]) f = Some f' ->
        replace_found a (fun _ => []) f' = Some f).
  { induction 1 as [|y r Hy _ IH]; intros f'; [done|].
    rewrite count_cons, count_element_eq, replace_found_cons. intros H0.
    destruct (has_class a y) eqn:Hay; [lia|].
    assert (count a (children y) = 0%nat) as Hy0 by lia.
    assert (count a r = 0%nat) as Hr0 by lia.
    destruct (has_class hd y).
    - intros [= <-]. simpl. by rewrite replace_found_cons, Hel.
    - destruct (replace_found_element hd _ y) as [y'|] eqn:Hry.
      + intros [= <-]. rewrite replace_found_cons.
        rewrite (has_class_classes a y y' (replace_found_element_classes _ _ _ _ Hry)), Hay.
        by rewrite (Hy y' Hy0 Hry).
      + destruct (replace_found hd _ r) as [r'|] eqn:Hrr; [|done]. intros [= <-].
        rewrite replace_found_cons, Hay.
        apply (proj1 (replace_found_None a (fun _ => [])) y) in Hy0 as ->.
        by rewrite (IH r' Hr0 eq_refl). }
  assert (He : forall e, Pe e).
  { induction e as [cls text h ch IH] using element_forest_ind. intros e' H0.
    rewrite replace_found_element_eq. simpl in *.
    destruct (replace_found hd _ ch) as [ch'|] eqn:Hch; [|done]. intros [= <-].
    rewrite replace_found_element_eq. simpl. by rewrite (Hf ch IH ch' H0 Hch). }
  split; [exact He|]. intros f. apply Hf, Forall_forall. auto.
Qed.

Lemma zero_count_element c x :
  count_element c x = 0%nat -> has_class c x = false /\ count c (children x) = 0%nat.
Proof. rewrite count_element_eq. destruct (has_class c x); [lia|]. intros H. by split. Qed.

(** The replacement at the first top-level element of the class, when nothing
    before it carries the class. *)
Lemma replace_found_first c g before h after :
  count c before = 0%nat -> has_class c h = true ->
  replace_found c g (before ++ h :: after) = Some (before ++ g h ++ after).
Proof.
  intros H0 Hh. induction before as [|x r IH]; simpl.
  - by rewrite replace_found_cons, Hh.
  - rewrite count_cons in H0.
    assert (count_element c x = 0%nat) as [Hx Hch]%zero_count_element by lia.
    rewrite replace_found_cons, Hx.
    apply (proj1 (replace_found_None c g) x) in Hch as ->.
    rewrite IH by lia. done.
Qed.

Lemma replaced_first_cons c g y f f' :
  count_element c y = 0%nat ->
  replaced_first c g f f' -> replaced_first c g (y :: f) (y :: f').
Proof.
  intros Hy [before x after H0 Hx|before cls text h ch ch' after H0 Hc Hch].
  - apply (replaced_here c g (y :: before) x after); [|done].
    rewrite count_cons. lia.
  - apply (replaced_below c g (y :: before) cls text h ch ch' after); [|done..].
    rewrite count_cons. lia.
Qed.

(** What [replace_found] returns is the forest with the first element of the
    class replaced in place, and nothing else changed. *)
Lemma replace_found_replaced_first c g :
  (forall e e', replace_found_element c g e = Some e' ->
     classes e' = classes e /\ textContent e' = textContent e
     /\ (exists cls text h ch ch',
           e = Element cls text h ch /\ e' = Element cls text h ch'
           /\ replaced_first c g ch ch'))
  /\ (forall f f', replace_found c g f = Some f' -> replaced_first c g f f').
Proof.
  set (Pe := fun e => forall e', replace_found_element c g e = Some e' ->
     classes e' = classes e /\ textContent e' = textContent e
     /\ (exists cls text h ch ch',
           e = Element cls text h ch /\ e' = Element cls text h ch'
           /\ replaced_first c g ch ch')).
  assert (Hf : forall f, Forall Pe f -> forall f', replace_found c g f = Some f' ->
                replaced_first c g f f').
  { induction 1 as [|y r Hy _ IH]; intros f'; [done|].
    rewrite replace_found_cons. destruct (has_class c y) eqn:Hcy.
    - intros [= <-]. by apply (replaced_here c g [] y r).
    - destruct (replace_found_element c g y) as [y'|] eqn:Hry.
      + intros [= <-].
        destruct (Hy y' Hry) as (_ & _ & cls & text & h & ch & ch' & -> & -> & Hch).
        by apply (replaced_below c g [] cls text h ch ch' r).
      + destruct (replace_found c g r) as [r'|]; [|done]. intros [= <-].
        apply replaced_first_cons; [|by apply IH].
        apply (proj1 (replace_found_None c g) y) in Hry.
        by rewrite count_element_eq, Hcy, Hry. }
  assert (He : forall e, Pe e).
  { induction e as [cls text h ch IH] using element_forest_ind. intros e'.
    rewrite replace_found_element_eq. cbn [classes textContent children].
    destruct (replace_found c g ch) as [ch'|] eqn:Hch; [|done]. intros [= <-].
    split; [done|]. split; [done|]. exists cls, text, h, ch, ch'. eauto. }
  split; [exact He|]. intros f. apply Hf, Forall_forall. auto.
Qed.

(** ** Banners *)

Lemma labels_of_element_has_class c x :
  has_class c x = true -> (1 <= length (labels_of_element c x))%nat.
Proof. intros H. rewrite labels_of_element_eq, H, length_app. simpl. lia. Qed.

(** The removal clears a view that hosts at most one banner. *)
Lemma removeAdmonitor_clears v :
  (length (banners v) <= 1)%nat -> banners (removeAdmonitor v) = [].
Proof.
  intros Hle. unfold banners, removeAdmonitor, find_remove in *. simpl.
  destruct (replace_found ADMONITOR_CLS _ (containerEl v)) as [f'|] eqn:Hr; simpl.
  - apply (proj2 (replace_found_labels _ _ ADMONITOR_CLS)) in Hr
      as (x & l1 & l2 & Hx & H1 & H2).
    apply (labels_of_element_has_class ADMONITOR_CLS) in Hx.
    rewrite H1, !length_app in Hle. rewrite H2. simpl.
    destruct l1, l2; simpl in *; try lia. done.
  - apply (proj2 (replace_found_None _ _)) in Hr.
    apply length_zero_iff_nil. by rewrite (proj2 (length_labels_of _)).
Qed.

(** The removal leaves a view without banner as it is. *)
Lemma removeAdmonitor_none v : banners v = [] -> removeAdmonitor v = v.
Proof.
  intros H. destruct v as [f]. unfold removeAdmonitor, find_remove, banners in *.
  simpl in *. f_equal.
  assert (count ADMONITOR_CLS f = 0%nat) as H0
    by by rewrite <- (proj2 (length_labels_of _)), H.
  by apply (proj2 (replace_found_None ADMONITOR_CLS (fun _ => []))) in H0 as ->.
Qed.

Lemma kind_classes_banner type cls text h ch :
  kind_classes type = Some cls ->
  has_class ADMONITOR_CLS (Element cls text h ch) = true.
Proof.
  unfold kind_classes.
  destruct (jsstring_eqb type (js "warning")); [by intros [= <-]|].
  destruct (jsstring_eqb type (js "error")); [by intros [= <-]|done].
Qed.

(** An insertion that returns adds the banner and keeps every other one. *)
Lemma insertAdmonitor_adds v text type v' :
  insertAdmonitor v text type = (v', Return tt) ->
  exists cls l1 l2,
    kind_classes type = Some cls
    /\ banners v = l1 ++ l2 /\ banners v' = l1 ++ (cls, text) :: l2.
Proof.
  unfold insertAdmonitor.
  destruct (kind_classes type) as [cls|] eqn:Hcls; [|done].
  pose proof (kind_classes_banner type cls text
                (Some (OpenSettingTab (js "obsidian-task-admonitor"))) [] Hcls) as Hel.
  destruct (find_insert_before _ _ _) as [f'|] eqn:Hf; [|done]. intros [= <-].
  apply (proj2 (replace_found_labels _ _ ADMONITOR_CLS)) in Hf
    as (x & l1 & l2 & Hx & H1 & H2).
  exists cls, l1, (labels_of_element ADMONITOR_CLS x ++ l2).
  split; [done|]. split; [done|].
  unfold banners. simpl. rewrite H2, labels_of_cons, labels_of_element_eq, Hel.
  unfold labels_of at 1 2. simpl. by rewrite app_nil_r.
Qed.


(** An insertion either returns or throws and leaves the view as it is. *)
Lemma insertAdmonitor_throws v text type v' e :
  insertAdmonitor v text type = (v', Throw e) -> v' = v.
Proof.
  unfold insertAdmonitor. destruct (kind_classes type); [|by intros [= <-]].
  destruct (find_insert_before _ _ _); [done|by intros [= <-]].
Qed.

(** Removing right after an insertion into a view without banner undoes it. *)
Lemma removeAdmonitor_insertAdmonitor v text type v' :
  banners v = [] -> insertAdmonitor v text type = (v', Return tt) ->
  removeAdmonitor v' = v.
Proof.
  intros Hb. unfold insertAdmonitor.
  destruct (kind_classes type) as [cls|] eqn:Hcls; [|done].
  pose proof (kind_classes_banner type cls text
                (Some (OpenSettingTab (js "obsidian-task-admonitor"))) [] Hcls) as Hel.
  destruct (find_insert_before _ _ _) as [f'|] eqn:Hf; [|done]. intros [= <-].
  destruct v as [f]. unfold removeAdmonitor, find_remove, banners in *. simpl in *.
  assert (count ADMONITOR_CLS f = 0%nat) as H0
    by by rewrite <- (proj2 (length_labels_of _)), Hb.
  by rewrite (proj2 (remove_inserted _ _ _ Hel) f f' H0 Hf).
Qed.

(** ** The evaluation run *)

Section Run.

Variable getTimezoneOffset : Z -> Z.
Variable settings : Settings.

(** What lines 70 to 83 do to the view is at most one insertion, and which
    one does not depend on the view. *)
Lemma exec_lastUpdated_cases lastUpdated now :
  (forall v, exec_lastUpdated getTimezoneOffset settings v lastUpdated now = (v, Return tt))
  \/ (exists text type,
        forall v, exec_lastUpdated getTimezoneOffset settings v lastUpdated now
                  = insertAdmonitor v text type).
Proof.
  unfold exec_lastUpdated. destruct lastUpdated as [d|].
  - destruct (number_ge _ _); [right; eauto|by left].
  - destruct (showWarningIfDataIsNotFound settings); [right; eauto|by left].
Qed.

(** After the removal and what follows it, a removal gives the view that the
    first removal gave. *)
Lemma removeAdmonitor_exec_lastUpdated v lastUpdated now v' r :
  (length (banners v) <= 1)%nat ->
  exec_lastUpdated getTimezoneOffset settings (removeAdmonitor v) lastUpdated now = (v', r) ->
  removeAdmonitor v' = removeAdmonitor v.
Proof.
  intros Hle He. apply removeAdmonitor_clears in Hle.
  destruct (exec_lastUpdated_cases lastUpdated now) as [Hn|(text & type & Hi)].
  - rewrite Hn in He. injection He as <- <-. by apply removeAdmonitor_none.
  - rewrite Hi in He. destruct r as [[]|e].
    + by apply (removeAdmonitor_insertAdmonitor _ text type).
    + apply insertAdmonitor_throws in He as ->. by apply removeAdmonitor_none.
Qed.

(** Lines 70 to 83 read the clock through the day count and the date only. *)
Lemma exec_lastUpdated_clock v now1 now2 now3 now4 :
  diff_day getTimezoneOffset (Instant now4) (Instant now3)
  = diff_day getTimezoneOffset (Instant now2) (Instant now1) ->
  format_YYYY_MM_DD getTimezoneOffset (Instant now3)
  = format_YYYY_MM_DD getTimezoneOffset (Instant now1) ->
  exec_lastUpdated getTimezoneOffset settings v (Some (Instant now3)) now4
  = exec_lastUpdated getTimezoneOffset settings v (Some (Instant now1)) now2.
Proof. intros Hd Hf. unfold exec_lastUpdated, warning_text. by rewrite Hd, Hf. Qed.

(** A second run on the outcome of a run, at a later time that gives the same
    day count and the same date. *)
Lemma exec_exec_later {V : Type} now1 now2 now3 now4 markdownView (view : option V) :
  single_banner markdownView ->
  diff_day getTimezoneOffset (Instant now4) (Instant now3)
  = diff_day getTimezoneOffset (Instant now2) (Instant now1) ->
  format_YYYY_MM_DD getTimezoneOffset (Instant now3)
  = format_YYYY_MM_DD getTimezoneOffset (Instant now1) ->
  exec getTimezoneOffset settings now3 now4
    (exec getTimezoneOffset settings now1 now2 markdownView view).1 view
  = exec getTimezoneOffset settings now1 now2 markdownView view.
Proof.
  intros Hs Hd Hf. unfold exec at 2 3.
  destruct markdownView as [v|]; [|done]. destruct view as [x|]; [|done].
  destruct (exec_lastUpdated _ _ (removeAdmonitor v) _ now2) as [v' r] eqn:He.
  unfold exec. cbn [fst].
  rewrite (removeAdmonitor_exec_lastUpdated v _ now2 v' r Hs He).
  by rewrite (exec_lastUpdated_clock _ now1 now2 now3 now4 Hd Hf), He.
Qed.

(** A second run on the outcome of a run, the clock read as before. *)
Lemma exec_exec {V : Type} now1 now2 markdownView (view : option V) :
  single_banner markdownView ->
  exec getTimezoneOffset settings now1 now2
    (exec getTimezoneOffset settings now1 now2 markdownView view).1 view
  = exec getTimezoneOffset settings now1 now2 markdownView view.
Proof. intros Hs. by apply exec_exec_later. Qed.

(** A run leaves at most the banner it inserts: the warning whose day count
    is taken between the two readings of the clock and whose date is the
    first reading. *)
Lemma exec_banners {V : Type} now1 now2 v (view : option V) v' r :
  (length (banners v) <= 1)%nat ->
  exec getTimezoneOffset settings now1 now2 (Some v) view = (Some v', r) ->
  (view = None /\ v' = v)
  \/ banners v' = []
  \/ (banners v'
      = [([ADMONITOR_CLS; ADMONITOR_WARNING_CLS],
          warning_text getTimezoneOffset settings
            (diff_day getTimezoneOffset (Instant now2) (Instant now1)) (Instant now1))]
      /\ r = Return tt).
Proof.
  intros Hle. unfold exec. destruct view as [x|]; [|intros [= <- <-]; by left].
  intros He. right. apply removeAdmonitor_clears in Hle. revert He.
  unfold exec_lastUpdated.
  destruct (number_ge _ _); [|intros [= <- <-]; by left].
  destruct (insertAdmonitor _ _ _) as [v1 r1] eqn:Hi. intros [= <- <-].
  destruct r1 as [[]|e].
  - right. apply insertAdmonitor_adds in Hi as (cls & l1 & l2 & Hk & H1 & H2).
    rewrite Hle in H1. destruct l1, l2; try done.
    by injection Hk as <-.
  - left. by apply insertAdmonitor_throws in Hi as ->.
Qed.

End Run.

(** ** Replacement of the first occurrence *)

Lemma starts_with_spec p s : starts_with p s = true <-> exists r, s = p ++ r.
Proof.
  revert s. induction p as [|a p IH]; intros s; simpl.
  - split; [by exists s|done].
  - destruct s as [|b s]; [split; [done|by intros [r Hr]]|].
    rewrite andb_true_iff, N.eqb_eq, IH. split.
    + intros [-> [r ->]]. by exists r.
    + intros [r [= -> ->]]. split; [done|by exists r].
Qed.

Lemma find_substring_unfold pat s :
  find_substring pat s =
  if starts_with pat s then Some ([], drop (length pat) s)
  else match s with
       | [] => None
       | c :: r =>
           match find_substring pat r with
           | Some (before, after) => Some (c :: before, after)
           | None => None
           end
       end.
Proof. by destruct s. Qed.

(** [find_substring] cuts the text at the leftmost occurrence. *)
Lemma find_substring_Some pat s b a :
  find_substring pat s = Some (b, a) ->
  s = b ++ pat ++ a
  /\ forall b' a', s = b' ++ pat ++ a' -> (length b <= length b')%nat.
Proof.
  revert b. induction s as [|c r IH]; intros b; rewrite find_substring_unfold.
  - destruct (starts_with pat []) eqn:Hsw; [|done]. intros [= <- <-].
    apply starts_with_spec in Hsw as [r Hr]. symmetry in Hr.
    apply app_eq_nil in Hr as [-> ->]. split; [done|]. intros; simpl; lia.
  - destruct (starts_with pat (c :: r)) eqn:Hsw.
    + intros [= <- <-]. apply starts_with_spec in Hsw as [r' Hr]. rewrite Hr at 1.
      rewrite Hr, drop_app_length. split; [done|]. intros; simpl; lia.
    + destruct (find_substring pat r) as [[b0 a0]|] eqn:Hf; [|done]. intros [= <- <-].
      destruct (IH b0 eq_refl) as [Hr Hmin]. split; [by rewrite Hr|].
      intros [|c' b'] a' Heq.
      * assert (starts_with pat (c :: r) = true) as Ht
          by (apply starts_with_spec; by exists a').
        congruence.
      * injection Heq as -> Heq. simpl. specialize (Hmin b' a' Heq). lia.
Qed.

Lemma find_substring_None pat s :
  find_substring pat s = None -> forall b a, s <> b ++ pat ++ a.
Proof.
  induction s as [|c r IH]; rewrite find_substring_unfold.
  - destruct (starts_with pat []) eqn:Hsw; [done|]. intros _ b a Heq.
    symmetry in Heq. apply app_eq_nil in Heq as [-> Heq].
    apply app_eq_nil in Heq as [-> ->]. discriminate Hsw.
  - destruct (starts_with pat (c :: r)) eqn:Hsw; [done|].
    destruct (find_substring pat r) as [[b0 a0]|] eqn:Hf; [done|]. intros _ [|c' b'] a Heq.
    + assert (starts_with pat (c :: r) = true) as Ht
        by (apply starts_with_spec; by exists a).
      congruence.
    + injection Heq as -> Heq. by apply (IH eq_refl b' a).
Qed.

Lemma substitution_no_dollar rep before matched after :
  DOLLAR ∉ rep -> substitution rep before matched after = rep.
Proof.
  induction rep as [|c r IH]; intros Hn; [done|].
  apply not_elem_of_cons in Hn as [Hc Hr]. simpl.
  destruct (N.eqb_spec c DOLLAR) as [->|_]; [done|]. by rewrite IH.
Qed.

(** With a replacement text free of [$], [replace] puts the text itself in
    the place of the first occurrence. *)
Lemma replace_first_occurrence s pat rep :
  DOLLAR ∉ rep -> first_occurrence_replaced s pat rep (replace s pat rep).
Proof.
  intros Hn. unfold replace.
  destruct (find_substring pat s) as [[b a]|] eqn:Hf.
  - left. exists b, a. apply find_substring_Some in Hf as [Hs Hmin].
    by rewrite substitution_no_dollar.
  - right. split; [by apply find_substring_None|done].
Qed.

(** ** The texts put into the message *)

Lemma string_of_uint_digits u :
  Forall is_sign_or_digit (js (NilEmpty.string_of_uint u)).
Proof.
  induction u; simpl; try (constructor; [right; vm_compute; split; discriminate|done]).
  constructor.
Qed.

Lemma String_of_Z_chars z : Forall is_sign_or_digit (String_of_Z z).
Proof.
  unfold String_of_Z, NilZero.string_of_int, NilZero.string_of_uint.
  assert (Hu : forall u, Forall is_sign_or_digit
                 (js match u with
                     | Decimal.Nil => "0"%string
                     | _ => NilEmpty.string_of_uint u
                     end)).
  { intros u. destruct u; try apply string_of_uint_digits.
    constructor; [right; vm_compute; split; discriminate|constructor]. }
  destruct (Z.to_int z) as [u|u]; [apply Hu|].
  constructor; [by left|apply Hu].
Qed.

Lemma sign_or_digit_no_dollar s : Forall is_sign_or_digit s -> DOLLAR ∉ s.
Proof.
  intros H Hin. rewrite Forall_forall in H. apply H in Hin as [Hd|[Hd _]]; [done|].
  by vm_compute in Hd.
Qed.

Lemma pad_start_chars n s :
  Forall is_sign_or_digit s -> Forall is_sign_or_digit (pad_start n s).
Proof.
  intros H. unfold pad_start. apply Forall_app. split; [|done].
  apply Forall_replicate. right. vm_compute. split; discriminate.
Qed.

Lemma String_of_number_no_dollar n : DOLLAR ∉ String_of_number n.
Proof.
  destruct n as [|z]; [compute_done|].
  apply sign_or_digit_no_dollar, String_of_Z_chars.
Qed.

Lemma format_no_dollar tz d : DOLLAR ∉ format_YYYY_MM_DD tz d.
Proof.
  destruct d as [|ms]; [compute_done|]. unfold format_YYYY_MM_DD.
  destruct (civil_from_days _) as [[y m] dd].
  assert (Forall is_sign_or_digit (js "-")) as Hdash by (repeat constructor).
  apply sign_or_digit_no_dollar.
  apply Forall_app_2; [apply pad_start_chars, String_of_Z_chars|].
  apply Forall_app_2; [exact Hdash|].
  apply Forall_app_2; [apply pad_start_chars, String_of_Z_chars|].
  apply Forall_app_2; [exact Hdash|].
  apply pad_start_chars, String_of_Z_chars.
Qed.

(** ** The header of a view *)

Lemma find_cons c x r :
  find c (x :: r) =
  if has_class c x then Some x
  else match find_element c x with
       | Some y => Some y
       | None => find c r
       end.
Proof. reflexivity. Qed.

Lemma find_element_eq c e : find_element c e = find c (children e).
Proof. by destruct e. Qed.

(** [find] returns null exactly when no element carries the class. *)
Lemma find_None c :
  (forall e, find_element c e = None <-> count c (children e) = 0%nat)
  /\ (forall f, find c f = None <-> count c f = 0%nat).
Proof.
  assert (Hf : forall f,
             Forall (fun e => find_element c e = None
                              <-> count c (children e) = 0%nat) f ->
             (find c f = None <-> count c f = 0%nat)).
  { induction 1 as [|x r Hx _ IH]; [done|].
    rewrite find_cons, count_cons, count_element_eq.
    destruct (has_class c x); [split; [done|lia]|].
    destruct (find_element c x) eqn:Hfx.
    - split; [done|]. intros H0.
      assert (count c (children x) = 0%nat) as Hc by lia. by apply Hx in Hc.
    - assert (count c (children x) = 0%nat) as -> by by apply Hx.
      rewrite IH. simpl. lia. }
  assert (He : forall e, find_element c e = None <-> count c (children e) = 0%nat).
  { induction e as [cls text h ch IH] using element_forest_ind.
    rewrite find_element_eq. by apply Hf. }
  split; [exact He|]. intros f. apply Hf, Forall_forall. auto.
Qed.

(** In a view with a header the insertion of a known kind returns. *)
Lemma insertAdmonitor_returns v text type cls :
  find VIEW_HEADER_CLS (containerEl v) <> None ->
  kind_classes type = Some cls ->
  exists v', insertAdmonitor v text type = (v', Return tt).
Proof.
  intros Hh Hk. unfold insertAdmonitor. rewrite Hk.
  destruct (find_insert_before _ _ _) as [f'|] eqn:Hf; [by eexists|].
  apply (proj2 (replace_found_None _ _)) in Hf.
  by apply (proj2 (find_None _)) in Hf.
Qed.

(** ** The day count *)

Lemma diff_day_wall_clock tz a b :
  diff_day tz (Instant a) (Instant b)
  = Num (Z.quot (wall_clock tz a - wall_clock tz b) 86400000).
Proof. unfold diff_day, wall_clock. do 2 f_equal. lia. Qed.

(** A date two days ahead of the clock gives the day count -2: under the
    threshold 0 lines 70 to 83 insert nothing for it. *)
Lemma exec_lastUpdated_future_date :
  let settings :=
    {| minNumberOfDaysToShowWarning := 0;
       messageTemplate := messageTemplate DEFAULT_SETTINGS;
       showWarningIfDataIsNotFound := false;
       triggerToUpdate := js "On open file";
       dateToBeReferred := js "Front matter";
       frontMatterKey := js "updated";
       captureGroupPattern := captureGroupPattern DEFAULT_SETTINGS;
       excludePrefixPathPatterns := [] |} in
  let view := {| containerEl := [Element [VIEW_HEADER_CLS] [] None [];
                                 Element [js "view-content"] [] None []] |} in
  let now := 1704067200000%Z in
  let lastUpdated := Instant (now + 2 * 86400000) in
  diff_day ReferenceHost.getTimezoneOffset (Instant now) lastUpdated = Num (-2)
  /\ ReferenceHost.exec_lastUpdated settings view (Some lastUpdated) now
     = (view, Return tt)
  /\ banners view = [].
Proof. repeat split. Qed.

(** What lines 70 to 83 make of a date bound to [lastUpdated], on a view
    with a header that the removal has cleared: a warning banner is inserted
    if and only if the day count is a number greater than or equal to
    [minNumberOfDaysToShowWarning].  The day count is the difference of the
    two wall clock times in whole days, truncated towards zero: it is
    negative for a date a whole day or more ahead and NaN for an invalid
    date.  The threshold 180 warns at exactly 180 days and not at 179.  The
    text of the banner is [messageTemplate] with the first occurrence of
    [${numberOfDays}] replaced by the day count and then the first occurrence
    of [${date}] replaced by the date as YYYY-MM-DD, each replaced once. *)
Lemma exec_lastUpdated_threshold
    (getTimezoneOffset : Z -> Z) (settings : Settings) (v : ItemView)
    (lastUpdated : Dayjs) (now : Z) :
  banners v = [] ->
  find VIEW_HEADER_CLS (containerEl v) <> None ->
  let numberOfDays := diff_day getTimezoneOffset (Instant now) lastUpdated in
  let threshold := minNumberOfDaysToShowWarning settings in
  let out := exec_lastUpdated getTimezoneOffset settings v (Some lastUpdated) now in
  numberOfDays
  = match lastUpdated with
    | InvalidDate => NaN
    | Instant ms =>
        Num (Z.quot (wall_clock getTimezoneOffset now - wall_clock getTimezoneOffset ms)
                    86400000)
    end
  /\ (number_ge numberOfDays threshold = true <->
      exists z, numberOfDays = Num z /\ (threshold <= z)%Z)
  /\ (number_ge numberOfDays threshold = true ->
      exists t text,
        first_occurrence_replaced (messageTemplate settings) (js "${numberOfDays}")
          (String_of_number numberOfDays) t
        /\ first_occurrence_replaced t (js "${date}")
             (format_YYYY_MM_DD getTimezoneOffset lastUpdated) text
        /\ banners out.1 = [([ADMONITOR_CLS; ADMONITOR_WARNING_CLS], text)]
        /\ out.2 = Return tt)
  /\ (number_ge numberOfDays threshold = false -> out = (v, Return tt))
  /\ (forall ms, lastUpdated = Instant ms -> threshold = 0%Z ->
        (number_ge numberOfDays threshold = true <->
         (- 86400000 < wall_clock getTimezoneOffset now
                       - wall_clock getTimezoneOffset ms)%Z))
  /\ (forall ms, lastUpdated = Instant ms -> threshold = 180%Z ->
        ((wall_clock getTimezoneOffset now - wall_clock getTimezoneOffset ms
          = 180 * 86400000)%Z -> number_ge numberOfDays threshold = true)
        /\ ((wall_clock getTimezoneOffset now - wall_clock getTimezoneOffset ms
             = 179 * 86400000)%Z -> number_ge numberOfDays threshold = false)).
Proof.
  intros Hb Hh numberOfDays threshold out.
  assert (Hn : numberOfDays
               = match lastUpdated with
                 | InvalidDate => NaN
                 | Instant ms =>
                     Num (Z.quot (wall_clock getTimezoneOffset now
                                  - wall_clock getTimezoneOffset ms) 86400000)
                 end).
  { subst numberOfDays. destruct lastUpdated; [done|apply diff_day_wall_clock]. }
  split; [exact Hn|]. split; [|split; [|split; [|split]]].
  - destruct numberOfDays as [|z]; simpl.
    + split; [done|]. by intros (z & ? & _).
    + rewrite Z.leb_le. split; [by exists z|]. by intros (z' & [= ->] & ?).
  - intros Hge. subst out. unfold exec_lastUpdated.
    fold numberOfDays. fold threshold. rewrite Hge.
    set (text := warning_text getTimezoneOffset settings numberOfDays lastUpdated).
    destruct (insertAdmonitor_returns v text (js "warning")
                [ADMONITOR_CLS; ADMONITOR_WARNING_CLS] Hh eq_refl) as [v' Hi].
    rewrite Hi. cbn [fst snd].
    eexists _, text. split; [apply replace_first_occurrence, String_of_number_no_dollar|].
    split; [apply replace_first_occurrence, format_no_dollar|]. split; [|done].
    apply insertAdmonitor_adds in Hi as (cls & l1 & l2 & Hk & H1 & H2).
    rewrite Hb in H1. destruct l1, l2; try done. by injection Hk as <-.
  - intros Hge. subst out. unfold exec_lastUpdated.
    fold numberOfDays. fold threshold. by rewrite Hge.
  - intros ms -> H0. rewrite Hn, H0. simpl. rewrite Z.leb_le.
    Z.to_euclidean_division_equations. lia.
  - intros ms -> H180. rewrite Hn, H180. simpl.
    split; intros ->; reflexivity.
Qed.




(** C8, as the claim states it, fails: the configuration and the document
    unchanged, a run a second before midnight and a run a second after it
    leave banners of different texts. *)
Lemma exec_twice_across_midnight :
  let view := {| containerEl := [Element [VIEW_HEADER_CLS] [] None [];
                                 Element [js "view-content"] [] None []] |} in
  let settings :=
    {| minNumberOfDaysToShowWarning := 0;
       messageTemplate := js "${numberOfDays} days, since ${date}";
       showWarningIfDataIsNotFound := false;
       triggerToUpdate := js "On open file";
       dateToBeReferred := js "Modified time";
       frontMatterKey := js "updated";
       captureGroupPattern := captureGroupPattern DEFAULT_SETTINGS;
       excludePrefixPathPatterns := [] |} in
  let file := {| mtime := 1704067200000; cachedRead := text_of ["text"] |} in
  let first := ReferenceHost.exec settings 1704153599000 1704153599005
                 (Some view) (Some file) in
  let second := ReferenceHost.exec settings 1704153601000 1704153601005
                  first.1 (Some file) in
  banners (default view first.1)
  = [([ADMONITOR_CLS; ADMONITOR_WARNING_CLS], js "0 days, since 2024-01-01")]
  /\ banners (default view second.1)
     = [([ADMONITOR_CLS; ADMONITOR_WARNING_CLS], js "0 days, since 2024-01-02")]
  /\ second <> first.
Proof. split; [reflexivity|]. split; [reflexivity|]. discriminate. Qed.

(** C8, amended: a second evaluation run on the outcome of a run, with the
    configuration unchanged, returns the outcome of the first, the same view
    with the same banner or none and the same return or error, when the
    clock gives the second run the day count and the calendar date it gave
    the first; the second run then changes nothing.  The run does not read
    the document.  The view hosts at most one banner to begin with.
    [now1] and [now2] are the readings of the clock by the first run, [now3]
    and [now4] those by the second. *)
Theorem exec_idempotent
    (getTimezoneOffset : Z -> Z) (settings : Settings) (V : Type)
    (now1 now2 now3 now4 : Z) (markdownView : option ItemView) (view : option V) :
  single_banner markdownView ->
  diff_day getTimezoneOffset (Instant now4) (Instant now3)
  = diff_day getTimezoneOffset (Instant now2) (Instant now1) ->
  format_YYYY_MM_DD getTimezoneOffset (Instant now3)
  = format_YYYY_MM_DD getTimezoneOffset (Instant now1) ->
  let out := exec getTimezoneOffset settings now1 now2 markdownView view in
  exec getTimezoneOffset settings now3 now4 out.1 view = out.
Proof. intros Hs Hdays Hdate. by apply exec_exec_later. Qed.

Lemma exec_idempotent_witness :
  let view := {| containerEl :=
                   [Element [ADMONITOR_CLS; ADMONITOR_ERR_CLS] (js "The date was not found")
                      None [];
                    Element [VIEW_HEADER_CLS] [] None [];
                    Element [js "view-content"] [] None []] |} in
  let settings :=
    {| minNumberOfDaysToShowWarning := 0;
       messageTemplate := js "${numberOfDays} days, since ${date}";
       showWarningIfDataIsNotFound := true;
       triggerToUpdate := js "On open file";
       dateToBeReferred := js "Modified time";
       frontMatterKey := js "updated";
       captureGroupPattern := captureGroupPattern DEFAULT_SETTINGS;
       excludePrefixPathPatterns := [] |} in
  let out := ReferenceHost.exec settings 1704067200000 1704067200007 (Some view) (Some view) in
  single_banner (Some view)
  /\ banners (default view out.1)
     = [([ADMONITOR_CLS; ADMONITOR_WARNING_CLS], js "0 days, since 2024-01-01")]
  /\ diff_day ReferenceHost.getTimezoneOffset
       (Instant 1704067260009) (Instant 1704067260000)
     = diff_day ReferenceHost.getTimezoneOffset
         (Instant 1704067200007) (Instant 1704067200000)
  /\ format_YYYY_MM_DD ReferenceHost.getTimezoneOffset (Instant 1704067260000)
     = format_YYYY_MM_DD ReferenceHost.getTimezoneOffset (Instant 1704067200000)
  /\ ReferenceHost.exec settings 1704067260000 1704067260009 out.1 (Some view) = out.
Proof.
  split; [simpl; lia|]. split; [reflexivity|]. split; [reflexivity|].
  split; [reflexivity|].
  apply (exec_idempotent ReferenceHost.getTimezoneOffset);
    [simpl; lia|reflexivity|reflexivity].
Defined.

(** ** The date of a file *)

Section FindDate.

Variable dayjs : value -> Dayjs.
Variable RegExp_g : jsstring -> option (jsstring -> value).
Variable settings : Settings.
Variable file : TFile.

Lemma findDate_front_matter :
  dateToBeReferred settings = js "Front matter" ->
  findDate dayjs RegExp_g settings file
  = let df := match AppHelper.getNoCacheFrontMatter (cachedRead file) with
              | Some o => obj_get o (frontMatterKey settings)
              | None => VUndefined
              end in
    Return (if truthy df then Some (dayjs df) else None).
Proof. intros H. unfold findDate. by rewrite H. Qed.

Lemma findDate_capture_group :
  dateToBeReferred settings = js "Capture group" ->
  findDate dayjs RegExp_g settings file
  = match RegExp_g (captureGroupPattern settings) with
    | None => Throw SyntaxError
    | Some groups_date =>
        let dc := hd VUndefined
                    (List.filter truthy (map groups_date (split LF (cachedRead file)))) in
        Return (if truthy dc then Some (dayjs dc) else None)
    end.
Proof. intros H. unfold findDate. by rewrite H. Qed.

Lemma filter_truthy_first (g : jsstring -> value) lines x rest :
  List.filter truthy (map g lines) = x :: rest ->
  exists before line after,
    lines = before ++ line :: after
    /\ Forall (fun l => truthy (g l) = false) before
    /\ truthy (g line) = true /\ x = g line.
Proof.
  induction lines as [|l lines IH]; [done|]. simpl.
  destruct (truthy (g l)) eqn:Ht.
  - intros [= <- _]. by exists [], l, lines.
  - intros H. destruct (IH H) as (before & line & after & -> & Hb & Hl & ->).
    exists (l :: before), line, after. split; [done|]. split; [by constructor|done].
Qed.

Lemma filter_truthy_app (g : jsstring -> value) before line after :
  Forall (fun l => truthy (g l) = false) before ->
  truthy (g line) = true ->
  hd VUndefined (List.filter truthy (map g (before ++ line :: after))) = g line.
Proof.
  intros Hb Hl. induction Hb as [|l before Hf _ IH]; simpl.
  - by rewrite Hl.
  - by rewrite Hf.
Qed.

End FindDate.

(** C5, as the claim states it, fails: a value of the front matter that is no
    date makes [findDate] return a date that is present and invalid. *)
Lemma findDate_unparseable_is_present :
  let settings := with_source DEFAULT_SETTINGS (js "Front matter") (js "updated")
                    (captureGroupPattern DEFAULT_SETTINGS) in
  let file := {| mtime := 1704067200000;
                 cachedRead := text_of ["---"; "updated: not-a-date"; "---"; "text"] |} in
  ReferenceHost.dayjs (VString (js " not-a-date")) = InvalidDate
  /\ ReferenceHost.findDate settings file = Return (Some InvalidDate)
  /\ isValid InvalidDate = false.
Proof. repeat split. Qed.

(** The resolver returns what [dayjs] makes of the candidate. *)
Lemma findDate_candidate
    (dayjs : value -> Dayjs) (RegExp_g : jsstring -> option (jsstring -> value))
    (settings : Settings) (file : TFile) (c : value) :
  candidate RegExp_g settings file c ->
  findDate dayjs RegExp_g settings file = Return (Some (dayjs c)).
Proof.
  intros [fm Hfm Hget Ht|g before line after Hcg Hre Hsplit Hbefore Hline].
  - rewrite findDate_front_matter by done. rewrite Hget. simpl. by rewrite Ht.
  - rewrite findDate_capture_group by done. rewrite Hre, Hsplit. simpl.
    rewrite filter_truthy_app by done. by rewrite Hline.
Qed.

(** Under the front-matter strategy, and under the capture-group strategy
    with a pattern that [RegExp] accepts, the resolver returns an absent
    result when there is no candidate. *)
Lemma findDate_no_candidate
    (dayjs : value -> Dayjs) (RegExp_g : jsstring -> option (jsstring -> value))
    (settings : Settings) (file : TFile) :
  dateToBeReferred settings = js "Front matter"
  \/ (dateToBeReferred settings = js "Capture group"
      /\ RegExp_g (captureGroupPattern settings) <> None) ->
  (forall c, ~ candidate RegExp_g settings file c) ->
  findDate dayjs RegExp_g settings file = Return None.
Proof.
  intros [Hfm|[Hcg Hre]] Hnone.
  - rewrite findDate_front_matter by done.
    destruct (AppHelper.getNoCacheFrontMatter (cachedRead file)) as [fm|] eqn:Hget;
      [|done].
    simpl. destruct (truthy (obj_get fm (frontMatterKey settings))) eqn:Ht; [|done].
    destruct (Hnone _ (candidate_front_matter _ _ _ fm Hfm Hget Ht)).
  - rewrite findDate_capture_group by done.
    destruct (RegExp_g (captureGroupPattern settings)) as [g|] eqn:Hg; [|done].
    destruct (List.filter truthy (map g (split LF (cachedRead file))))
      as [|x rest] eqn:Hfilter; [done|].
    apply filter_truthy_first in Hfilter
        as (before & line & after & Hsplit & Hbefore & Hline & ->).
    destruct (Hnone _ (candidate_capture_group _ _ _ g before line after
                         Hcg Hg Hsplit Hbefore Hline)).
Qed.

(** C5, amended: for every document and every configuration using the
    front-matter or the capture-group strategy, a candidate date string that
    cannot be parsed as a date makes the resolver return what [dayjs] makes
    of it, a date that is present and invalid: it does not throw and it does
    not return an absent result. *)
Theorem findDate_returns_what_dayjs_makes
    (dayjs : value -> Dayjs) (RegExp_g : jsstring -> option (jsstring -> value))
    (settings : Settings) (file : TFile) (c : value) :
  candidate RegExp_g settings file c ->
  isValid (dayjs c) = false ->
  (exists d, findDate dayjs RegExp_g settings file = Return (Some d)
             /\ d = dayjs c /\ isValid d = false)
  /\ findDate dayjs RegExp_g settings file <> Return None
  /\ (forall e, findDate dayjs RegExp_g settings file <> Throw e).
Proof.
  intros Hc Hinvalid. rewrite (findDate_candidate _ _ _ _ _ Hc).
  split; [by exists (dayjs c)|]. split; [done|]. by intros e.
Qed.

Lemma findDate_returns_what_dayjs_makes_witness :
  let settings := with_source DEFAULT_SETTINGS (js "Front matter") (js "updated")
                    (captureGroupPattern DEFAULT_SETTINGS) in
  let file := {| mtime := 1704067200000;
                 cachedRead := text_of ["---"; "updated: not-a-date"; "---"; "text"] |} in
  candidate ReferenceHost.RegExp_g settings file (VString (js " not-a-date"))
  /\ isValid (ReferenceHost.dayjs (VString (js " not-a-date"))) = false
  /\ exists d, ReferenceHost.findDate settings file = Return (Some d)
               /\ d = ReferenceHost.dayjs (VString (js " not-a-date"))
               /\ isValid d = false.
Proof.
  assert (Hcand : candidate ReferenceHost.RegExp_g
            (with_source DEFAULT_SETTINGS (js "Front matter") (js "updated")
               (captureGroupPattern DEFAULT_SETTINGS))
            {| mtime := 1704067200000;
               cachedRead := text_of ["---"; "updated: not-a-date"; "---"; "text"] |}
            (VString (js " not-a-date"))).
  { change (VString (js " not-a-date"))
      with (obj_get ({[ js "updated" := VString (js " not-a-date") ]} : object)
              (frontMatterKey
                 (with_source DEFAULT_SETTINGS (js "Front matter") (js "updated")
                    (captureGroupPattern DEFAULT_SETTINGS)))).
    apply candidate_front_matter; reflexivity. }
  split; [exact Hcand|]. split; [reflexivity|].
  apply (findDate_returns_what_dayjs_makes ReferenceHost.dayjs ReferenceHost.RegExp_g
           _ _ _ Hcand eq_refl).
Defined.

(** C9: a [dateToBeReferred] that is none of the three strategies makes
    [findDate] throw an [ExhaustiveError] that carries the value, and a kind
    that is neither [warning] nor [error] makes [insertAdmonitor] throw an
    [ExhaustiveError] that carries the kind and leave the view as it is;
    neither returns. *)
Theorem unrecognized_value_throws_ExhaustiveError :
  (forall (dayjs : value -> Dayjs) (RegExp_g : jsstring -> option (jsstring -> value))
          (settings : Settings) (file : TFile),
      dateToBeReferred settings
        ∉ [js "Modified time"; js "Front matter"; js "Capture group"] ->
      findDate dayjs RegExp_g settings file
      = Throw (ExhaustiveError (dateToBeReferred settings)))
  /\ (forall (v : ItemView) (text type : jsstring),
        type ∉ [js "warning"; js "error"] ->
        insertAdmonitor v text type = (v, Throw (ExhaustiveError type))).
Proof.
  split.
  - intros dayjs RegExp_g settings file Hs. unfold findDate, jsstring_eqb.
    repeat (let H := fresh in
            case_bool_decide as H; [rewrite H in Hs; exfalso; apply Hs; set_solver|]).
    done.
  - intros v text type Ht. unfold insertAdmonitor, kind_classes, jsstring_eqb.
    repeat (let H := fresh in
            case_bool_decide as H; [rewrite H in Ht; exfalso; apply Ht; set_solver|]).
    done.
Qed.

Lemma unrecognized_value_throws_ExhaustiveError_witness :
  let settings := with_source DEFAULT_SETTINGS (js "Created time") (js "updated")
                    (captureGroupPattern DEFAULT_SETTINGS) in
  let file := {| mtime := 1704067200000; cachedRead := text_of ["text"] |} in
  let view := {| containerEl := [Element [VIEW_HEADER_CLS] [] None []] |} in
  (dateToBeReferred settings
     ∉ [js "Modified time"; js "Front matter"; js "Capture group"])
  /\ (js "info" ∉ [js "warning"; js "error"])
  /\ ReferenceHost.findDate settings file = Throw (ExhaustiveError (js "Created time"))
  /\ insertAdmonitor view (js "note") (js "info")
     = (view, Throw (ExhaustiveError (js "info"))).
Proof.
  assert (H1 : js "Created time"
                 ∉ [js "Modified time"; js "Front matter"; js "Capture group"])
    by compute_done.
  assert (H2 : js "info" ∉ [js "warning"; js "error"]) by compute_done.
  split; [exact H1|]. split; [exact H2|]. split.
  - apply (proj1 unrecognized_value_throws_ExhaustiveError
             ReferenceHost.dayjs ReferenceHost.RegExp_g
             (with_source DEFAULT_SETTINGS (js "Created time") (js "updated")
                (captureGroupPattern DEFAULT_SETTINGS))
             {| mtime := 1704067200000; cachedRead := text_of ["text"] |} H1).
  - apply (proj2 unrecognized_value_throws_ExhaustiveError
             {| containerEl := [Element [VIEW_HEADER_CLS] [] None []] |}
             (js "note") (js "info") H2).
Defined.

(** A run inserts no error banner: the date-not-found branch of line 70 is
    never taken, [lastUpdated] being bound to the clock. *)
Lemma exec_inserts_no_error_banner
    (getTimezoneOffset : Z -> Z) (settings : Settings) (V : Type)
    (now1 now2 : Z) (v : ItemView) (x : V) (v' : ItemView) (r : result unit) text :
  (length (banners v) <= 1)%nat ->
  exec getTimezoneOffset settings now1 now2 (Some v) (Some x) = (Some v', r) ->
  ([ADMONITOR_CLS; ADMONITOR_ERR_CLS], text) ∉ banners v'.
Proof.
  intros Hle He.
  destruct (exec_banners _ _ _ _ _ _ _ _ Hle He) as [[? _]|[->|[-> _]]]; [done| |].
  - apply not_elem_of_nil.
  - intros [[= _]|Hin%elem_of_nil]%elem_of_cons; done.
Qed.

(** C1: the evaluation run does not ask [findDate].  [exec] takes no file,
    its outcome is the same whatever strategy, key and pattern the settings
    name, and the date it compares with the clock is the clock itself.  For a
    file modified 200 days ago, under the default settings, [findDate]
    resolves that date, from which lines 70 to 83 make the warning of 200
    days; [exec] inserts nothing. *)
Theorem exec_does_not_consult_findDate :
  (forall getTimezoneOffset settings referred key pattern (V : Type) now1 now2
          markdownView (view : option V),
      exec getTimezoneOffset (with_source settings referred key pattern)
        now1 now2 markdownView view
      = exec getTimezoneOffset settings now1 now2 markdownView view)
  /\ let now := 1704067200000%Z in
     let file := {| mtime := now - 200 * 86400000; cachedRead := text_of ["text"] |} in
     let view := {| containerEl := [Element [VIEW_HEADER_CLS] [] None [];
                                    Element [js "view-content"] [] None []] |} in
     ReferenceHost.findDate DEFAULT_SETTINGS file = Return (Some (Instant (mtime file)))
     /\ diff_day ReferenceHost.getTimezoneOffset (Instant now) (Instant (mtime file))
        = Num 200
     /\ banners (ReferenceHost.exec_lastUpdated DEFAULT_SETTINGS view
                   (Some (Instant (mtime file))) now).1
        = [([ADMONITOR_CLS; ADMONITOR_WARNING_CLS],
            js "The content has been no updated for over 200 days")]
     /\ ReferenceHost.exec DEFAULT_SETTINGS now (now + 5) (Some view) (Some file)
        = (Some view, Return tt).
Proof. split; [reflexivity|]. repeat split. Qed.

(** C6: the date-not-found banner is never shown.  For a note without front
    matter, under the front-matter strategy and with
    [showWarningIfDataIsNotFound] set, [findDate] resolves no date, from
    which lines 70 to 83 make the error banner; [exec] inserts nothing. *)
Theorem exec_shows_no_date_not_found_banner :
  let settings :=
    {| minNumberOfDaysToShowWarning := 180;
       messageTemplate := messageTemplate DEFAULT_SETTINGS;
       showWarningIfDataIsNotFound := true;
       triggerToUpdate := js "On open file";
       dateToBeReferred := js "Front matter";
       frontMatterKey := js "updated";
       captureGroupPattern := captureGroupPattern DEFAULT_SETTINGS;
       excludePrefixPathPatterns := [] |} in
  let now := 1704067200000%Z in
  let file := {| mtime := now; cachedRead := text_of ["a note"; "without front matter"] |} in
  let view := {| containerEl := [Element [VIEW_HEADER_CLS] [] None [];
                                 Element [js "view-content"] [] None []] |} in
  ReferenceHost.findDate settings file = Return None
  /\ banners (ReferenceHost.exec_lastUpdated settings view None now).1
     = [([ADMONITOR_CLS; ADMONITOR_ERR_CLS], js "The date was not found")]
  /\ ReferenceHost.exec settings now (now + 5) (Some view) (Some file)
     = (Some view, Return tt).
Proof. repeat split. Qed.

(** C7: the day count of a run is not the age of the resolved date.  [exec]
    binds [lastUpdated] to the clock, so the count compared with the
    threshold is the whole days between two readings of the clock.  For a
    file modified exactly 180 days ago, under the default settings with the
    threshold 180, [findDate] resolves that date, from which lines 70 to 83
    make the warning with the count 180 in the place of [${numberOfDays}];
    [exec] inserts nothing. *)
Theorem exec_counts_days_from_the_clock :
  (forall getTimezoneOffset now,
      diff_day getTimezoneOffset (Instant now) (Instant now) = Num 0)
  /\ let now := 1704067200000%Z in
     let file := {| mtime := now - 180 * 86400000; cachedRead := text_of ["text"] |} in
     let view := {| containerEl := [Element [VIEW_HEADER_CLS] [] None [];
                                    Element [js "view-content"] [] None []] |} in
     ReferenceHost.findDate DEFAULT_SETTINGS file = Return (Some (Instant (mtime file)))
     /\ diff_day ReferenceHost.getTimezoneOffset (Instant now) (Instant (mtime file))
        = Num 180
     /\ banners (ReferenceHost.exec_lastUpdated DEFAULT_SETTINGS view
                   (Some (Instant (mtime file))) now).1
        = [([ADMONITOR_CLS; ADMONITOR_WARNING_CLS],
            js "The content has been no updated for over 180 days")]
     /\ ReferenceHost.exec DEFAULT_SETTINGS now now (Some view) (Some file)
        = (Some view, Return tt).
Proof.
  split; [|repeat split].
  intros tz now. unfold diff_day. f_equal.
  replace (now - now - (utcOffset tz now - utcOffset tz now) * 60000)%Z with 0%Z by lia.
  reflexivity.
Qed.

(** * Further properties *)

(** ** The first line and the entries of the front matter *)

Lemma split_hd sep s :
  (sep ∉ hd [] (split sep s))
  /\ (s = hd [] (split sep s) \/ exists rest, s = hd [] (split sep s) ++ sep :: rest).
Proof.
  induction s as [|c r [IHn IHs]]; simpl.
  - split; [apply not_elem_of_nil|by left].
  - destruct (N.eqb_spec c sep) as [->|Hne]; simpl.
    + split; [apply not_elem_of_nil|]. right. by exists r.
    + destruct (split sep r) as [|seg segs] eqn:Hsplit; simpl in *.
      * split; [|destruct IHs as [->|[rest ->]]; [by left|right; by exists rest]].
        apply not_elem_of_cons. split; [done|apply not_elem_of_nil].
      * split; [by apply not_elem_of_cons|].
        destruct IHs as [->|[rest ->]]; [by left|right; by exists rest].
Qed.

Lemma split_hd_eq sep s p :
  hd [] (split sep s) = p <-> (sep ∉ p) /\ (s = p \/ exists rest, s = p ++ sep :: rest).
Proof.
  split.
  - intros <-. apply split_hd.
  - intros [Hn [->|[rest ->]]].
    + by rewrite split_no_sep.
    + by rewrite split_app_sep.
Qed.

Lemma split_segments sep s : Forall (fun seg => sep ∉ seg) (split sep s).
Proof.
  induction s as [|c r IH]; simpl.
  - constructor; [apply not_elem_of_nil|constructor].
  - destruct (N.eqb_spec c sep) as [->|Hne].
    + constructor; [apply not_elem_of_nil|done].
    + destruct (split sep r) as [|seg segs]; inversion IH; subst.
      * constructor; [|constructor].
        apply not_elem_of_cons. split; [done|apply not_elem_of_nil].
      * constructor; [by apply not_elem_of_cons|done].
Qed.

Lemma split_two sep s :
  sep ∈ s -> exists k v rest, split sep s = k :: v :: rest.
Proof.
  induction s as [|c r IH]; intros Hin; [by apply elem_of_nil in Hin|]. simpl.
  destruct (N.eqb_spec c sep) as [->|Hne].
  - destruct (split sep r) as [|seg segs] eqn:Hs; [|by eexists _, _, _].
    destruct r; simpl in Hs; [done|]. destruct (_ =? _); [done|]. by destruct (split sep r).
  - apply elem_of_cons in Hin as [->|Hin]; [done|].
    destruct (IH Hin) as (k & v & rest & ->). by eexists _, _, _.
Qed.

Lemma drop_while_keeps p c s : c ∈ s -> p c = false -> c ∈ drop_while p s.
Proof.
  induction s as [|a r IH]; intros Hin Hp; [done|]. simpl.
  destruct (p a) eqn:Hpa; [|done].
  apply elem_of_cons in Hin as [->|Hin]; [congruence|by apply IH].
Qed.

(** Trimming keeps every code unit that is no white space. *)
Lemma trim_keeps c s : c ∈ s -> is_trimmed_char c = false -> c ∈ trim s.
Proof.
  intros Hin Hc. unfold trim, trimEnd, trimStart.
  rewrite list_elem_of_In, <- in_rev, <- list_elem_of_In.
  apply drop_while_keeps; [|done].
  rewrite list_elem_of_In, <- in_rev, <- list_elem_of_In. by apply drop_while_keeps.
Qed.

Lemma key_value_test_colon line : key_value_test line = true -> COLON ∈ trim line.
Proof.
  intros (pre & c1 & c2 & post & -> & _ & _)%key_value_test_shape.
  apply trim_keeps; [|done]. apply elem_of_app. right. apply elem_of_cons. right.
  by left.
Qed.

(** What the test lets through is cut into a key and a text, both free of
    colons. *)
Lemma key_value_of_string line :
  key_value_test line = true ->
  exists k s, AppHelper.key_value_of line = (k, VString s) /\ (COLON ∉ k) /\ (COLON ∉ s).
Proof.
  intros Ht. unfold AppHelper.key_value_of.
  destruct (split_two COLON (trim line) (key_value_test_colon _ Ht)) as (k & v & rest & Hs).
  pose proof (split_segments COLON (trim line)) as Hall. rewrite Hs in *.
  inversion Hall as [|? ? Hk Hrest]; subst. inversion Hrest; subst. by exists k, v.
Qed.

Lemma obj_set_lookup_own k w o k' v :
  obj_set k w o !! k' = Some v ->
  (k' = k /\ v = w /\ k <> js "__proto__") \/ o !! k' = Some v.
Proof.
  unfold obj_set, jsstring_eqb. case_bool_decide as Hp; [by right|].
  destruct (decide (k = k')) as [->|Hne].
  - rewrite lookup_insert_eq. intros [= ->]. by left.
  - rewrite lookup_insert_ne by done. by right.
Qed.

(** Every entry of the folded object was there before or was set, under a
    name other than [__proto__], by a line that passes the test. *)
Lemma fold_forEach_line_entry lines o k v :
  fold_left AppHelper.forEach_line lines o !! k = Some v ->
  o !! k = Some v
  \/ (k <> js "__proto__"
      /\ exists line, line ∈ lines /\ key_value_test line = true
                      /\ AppHelper.key_value_of line = (k, v)).
Proof.
  revert o. induction lines as [|l lines IH]; intros o H; [by left|].
  simpl in H. apply IH in H as [H|(Hk & line & Hin & Ht & Hkv)].
  - destruct (key_value_test l) eqn:Ht.
    + rewrite forEach_line_key_value in H by done.
      apply obj_set_lookup_own in H as [(-> & -> & Hk)|H]; [|by left].
      right. split; [done|]. exists l. split; [by left|]. split; [done|].
      by destruct (AppHelper.key_value_of l).
    + rewrite forEach_line_skip in H by done. by left.
  - right. split; [done|]. exists line. split; [by right|done].
Qed.

(** X1: getNoCacheFrontMatter returns null exactly when the first line of the
    text is not [---]: when the text is neither [---] itself nor [---]
    followed by a line feed.  A first line [---] that ends in a carriage
    return, as in a file with Windows line ends, gives null. *)
Theorem getNoCacheFrontMatter_null_iff_first_line :
  (forall content,
      AppHelper.getNoCacheFrontMatter content = None
      <-> ~ (content = js "---" \/ exists rest, content = js "---" ++ LF :: rest))
  /\ (forall rest, AppHelper.getNoCacheFrontMatter (js "---" ++ 13 :: LF :: rest) = None).
Proof.
  assert (H : forall content,
             AppHelper.getNoCacheFrontMatter content = None
             <-> ~ (content = js "---" \/ exists rest, content = js "---" ++ LF :: rest)).
  { intros content. unfold AppHelper.getNoCacheFrontMatter, jsstring_eqb.
    case_bool_decide as Hhd; simpl.
    - apply split_hd_eq in Hhd as [_ Hhd]. split; [done|]. by intros [].
    - split; [|done]. intros _ Hc. apply Hhd, split_hd_eq. split; [compute_done|done]. }
  split; [exact H|]. intros rest. apply H. intros [Heq|[r Heq]]; discriminate.
Qed.

(** X2: every value that getNoCacheFrontMatter records is a string, never
    undefined, and neither a recorded key nor a recorded value holds a
    colon: a value such as a time of day is cut at its first colon. *)
Theorem front_matter_values_are_colon_free_strings
    (content : jsstring) (fm : object) (k : jsstring) (v : value) :
  AppHelper.getNoCacheFrontMatter content = Some fm ->
  fm !! k = Some v ->
  exists s, v = VString s /\ (COLON ∉ k) /\ (COLON ∉ s).
Proof.
  unfold AppHelper.getNoCacheFrontMatter. destruct (negb _); [done|]. intros [= <-] Hk.
  apply fold_forEach_line_entry in Hk as [Hk|(_ & line & _ & Ht & Hkv)].
  - by rewrite lookup_empty in Hk.
  - destruct (key_value_of_string line Ht) as (k' & s & Hkv' & Hck & Hcs).
    rewrite Hkv in Hkv'. injection Hkv' as -> ->. by exists s.
Qed.

Lemma front_matter_values_are_colon_free_strings_witness :
  let content := text_of ["---"; "updated: 2024-01-01 10:30"; "---"] in
  let fm : object := {[ js "updated" := VString (js " 2024-01-01 10") ]} in
  AppHelper.getNoCacheFrontMatter content = Some fm
  /\ fm !! js "updated" = Some (VString (js " 2024-01-01 10"))
  /\ exists s, VString (js " 2024-01-01 10") = VString s
               /\ (COLON ∉ js "updated") /\ (COLON ∉ s).
Proof.
  split; [reflexivity|]. split; [reflexivity|].
  apply (front_matter_values_are_colon_free_strings
           (text_of ["---"; "updated: 2024-01-01 10:30"; "---"])
           {[ js "updated" := VString (js " 2024-01-01 10") ]}); reflexivity.
Defined.

(** X3: getNoCacheFrontMatter never records an entry under [__proto__]: the
    assignment of a line [__proto__: x] goes to the inherited setter, which
    ignores a string, and the object stays as it was. *)
Theorem front_matter_has_no_proto_entry :
  (forall content fm,
      AppHelper.getNoCacheFrontMatter content = Some fm ->
      fm !! js "__proto__" = None)
  /\ (forall (o : object) line k v,
        key_value_test line = true ->
        AppHelper.key_value_of line = (k, v) ->
        k = js "__proto__" ->
        AppHelper.forEach_line o line = o).
Proof.
  split.
  - intros content fm. unfold AppHelper.getNoCacheFrontMatter.
    destruct (negb _); [done|]. intros [= <-].
    destruct (fold_left _ _ _ !! js "__proto__") as [v|] eqn:Hk; [|done].
    apply fold_forEach_line_entry in Hk as [Hk|(Hne & _)]; [|done].
    by rewrite lookup_empty in Hk.
  - intros o line k v Ht Hkv ->. rewrite forEach_line_key_value, Hkv by done.
    reflexivity.
Qed.

Lemma forEach_line_other_key o line k :
  (key_value_test line = true -> (AppHelper.key_value_of line).1 <> k) ->
  AppHelper.forEach_line o line !! k = o !! k.
Proof.
  intros H. destruct (key_value_test line) eqn:Ht.
  - rewrite forEach_line_key_value by done. unfold obj_set.
    destruct (jsstring_eqb _ _); [done|]. apply lookup_insert_ne. by apply H.
  - by rewrite forEach_line_skip.
Qed.

Lemma fold_forEach_line_other_keys lines o k :
  Forall (fun l => key_value_test l = true -> (AppHelper.key_value_of l).1 <> k) lines ->
  fold_left AppHelper.forEach_line lines o !! k = o !! k.
Proof.
  intros H. revert o. induction H as [|l lines Hl _ IH]; intros o; [done|].
  simpl. by rewrite IH, forEach_line_other_key.
Qed.

(** X4: when several lines set the same key, the last of them gives the
    value: the entry under a key is that of the last line that passes the
    test with that key, whatever stands before it. *)
Theorem front_matter_last_line_wins
    (content : jsstring) (before after : list jsstring) (line k : jsstring) (v : value) :
  split LF content = js "---" :: before ++ line :: after ->
  key_value_test line = true ->
  AppHelper.key_value_of line = (k, v) ->
  k <> js "__proto__" ->
  Forall (fun l => key_value_test l = true -> (AppHelper.key_value_of l).1 <> k) after ->
  exists fm, AppHelper.getNoCacheFrontMatter content = Some fm /\ fm !! k = Some v.
Proof.
  intros Hsplit Ht Hkv Hk Hafter. unfold AppHelper.getNoCacheFrontMatter.
  rewrite Hsplit. simpl. eexists. split; [reflexivity|].
  rewrite fold_left_app. simpl. rewrite fold_forEach_line_other_keys by done.
  rewrite forEach_line_key_value, Hkv by done. unfold obj_set, jsstring_eqb. simpl.
  rewrite bool_decide_eq_false_2 by done. apply lookup_insert_eq.
Qed.

Lemma front_matter_last_line_wins_witness :
  let content :=
    text_of ["---"; "updated: 2023-01-01"; "updated: 2024-06-30"; "title: note"; "---"] in
  split LF content
  = js "---" :: [js "updated: 2023-01-01"] ++ js "updated: 2024-06-30"
                  :: [js "title: note"; js "---"]
  /\ key_value_test (js "updated: 2024-06-30") = true
  /\ exists fm, AppHelper.getNoCacheFrontMatter content = Some fm
                /\ fm !! js "updated" = Some (VString (js " 2024-06-30")).
Proof.
  split; [reflexivity|]. split; [reflexivity|].
  apply (front_matter_last_line_wins
           (text_of ["---"; "updated: 2023-01-01"; "updated: 2024-06-30";
                     "title: note"; "---"])
           [js "updated: 2023-01-01"] [js "title: note"; js "---"]
           (js "updated: 2024-06-30") (js "updated") (VString (js " 2024-06-30"))).
  - reflexivity.
  - reflexivity.
  - reflexivity.
  - discriminate.
  - repeat constructor; intros _; discriminate.
Defined.

(** ** The date of a file *)

(** X5: with the front-matter strategy, findDate returns undefined for a
    note without front matter and for a key whose recorded text is empty.
    For a key the front matter does not record it returns undefined too,
    unless the key names a member every object inherits, such as
    [constructor] or [toString]: then it returns what dayjs makes of that
    member. *)
Theorem findDate_front_matter_key_not_recorded
    (dayjs : value -> Dayjs) (RegExp_g : jsstring -> option (jsstring -> value))
    (settings : Settings) (file : TFile) :
  dateToBeReferred settings = js "Front matter" ->
  (AppHelper.getNoCacheFrontMatter (cachedRead file) = None ->
   findDate dayjs RegExp_g settings file = Return None)
  /\ (forall fm,
        AppHelper.getNoCacheFrontMatter (cachedRead file) = Some fm ->
        fm !! frontMatterKey settings = None ->
        findDate dayjs RegExp_g settings file
        = Return (if bool_decide (frontMatterKey settings ∈ object_prototype_names)
                  then Some (dayjs VObject) else None))
  /\ (forall fm,
        AppHelper.getNoCacheFrontMatter (cachedRead file) = Some fm ->
        fm !! frontMatterKey settings = Some (VString []) ->
        findDate dayjs RegExp_g settings file = Return None).
Proof.
  intros Hs. unfold findDate. rewrite Hs. simpl.
  split; [by intros ->|]. split; intros fm -> Hk; unfold obj_get; rewrite Hk; [|done].
  by case_bool_decide.
Qed.

Lemma findDate_front_matter_key_not_recorded_witness :
  let settings := with_source DEFAULT_SETTINGS (js "Front matter") (js "toString") [] in
  let file := {| mtime := 0; cachedRead := text_of ["---"; "updated: 2024-01-01"; "---"] |} in
  dateToBeReferred settings = js "Front matter"
  /\ AppHelper.getNoCacheFrontMatter (cachedRead file)
     = Some {[ js "updated" := VString (js " 2024-01-01") ]}
  /\ ReferenceHost.findDate settings file = Return (Some InvalidDate).
Proof.
  split; [reflexivity|]. split; [reflexivity|].
  exact (proj1 (proj2 (findDate_front_matter_key_not_recorded
                         ReferenceHost.dayjs ReferenceHost.RegExp_g
                         (with_source DEFAULT_SETTINGS (js "Front matter") (js "toString") [])
                         {| mtime := 0;
                            cachedRead := text_of ["---"; "updated: 2024-01-01"; "---"] |}
                         eq_refl))
           {[ js "updated" := VString (js " 2024-01-01") ]} eq_refl eq_refl).
Defined.

(** X6: findDate throws in two cases only: an ExhaustiveError with the value
    of dateToBeReferred when that value is none of the three strategies, and
    the SyntaxError of the RegExp constructor when the strategy is the
    capture group and the pattern is malformed.  No content of the file and
    no text that is no date makes it throw. *)
Theorem findDate_throws_iff
    (dayjs : value -> Dayjs) (RegExp_g : jsstring -> option (jsstring -> value))
    (settings : Settings) (file : TFile) (e : error) :
  findDate dayjs RegExp_g settings file = Throw e
  <-> ((dateToBeReferred settings
          ∉ [js "Modified time"; js "Front matter"; js "Capture group"])
       /\ e = ExhaustiveError (dateToBeReferred settings))
      \/ (dateToBeReferred settings = js "Capture group"
          /\ RegExp_g (captureGroupPattern settings) = None
          /\ e = SyntaxError).
Proof.
  unfold findDate, jsstring_eqb.
  repeat (let H := fresh in case_bool_decide as H; [rewrite H|]).
  - split; [done|]. intros [[Hn _]|[[=] _]]. destruct Hn. set_solver.
  - split; [done|]. intros [[Hn _]|[[=] _]]. destruct Hn. set_solver.
  - destruct (RegExp_g _) eqn:HR.
    + split; [done|]. intros [[Hn _]|(_ & [=] & _)]. destruct Hn. set_solver.
    + split; [intros [= <-]; by right|]. intros [[Hn _]|(_ & _ & ->)]; [|done].
      destruct Hn. set_solver.
  - split.
    + intros [= <-]. left. split; [|done].
      rewrite !not_elem_of_cons. repeat split; try done. apply not_elem_of_nil.
    + intros [[_ ->]|[? _]]; done.
Qed.

(** ** Insertion and removal of a banner *)

(** X7: insertAdmonitor puts the banner right before the first element of
    class [view-header]: for a header among the children of the container,
    with no header before it, the new element is its previous sibling and
    everything else stays where it was.  The banner has the classes of its
    kind, the given text, no children and a click handler that opens the
    settings tab [obsidian-task-admonitor]. *)
Theorem insertAdmonitor_before_header
    (v : ItemView) (text type : jsstring) (cls : list jsstring)
    (before after : list element) (h : element) :
  containerEl v = before ++ h :: after ->
  count VIEW_HEADER_CLS before = 0%nat ->
  has_class VIEW_HEADER_CLS h = true ->
  kind_classes type = Some cls ->
  insertAdmonitor v text type
  = ({| containerEl :=
          before
          ++ Element cls text (Some (OpenSettingTab (js "obsidian-task-admonitor"))) []
             :: h :: after |},
     Return tt).
Proof.
  intros Hv H0 Hh Hcls. unfold insertAdmonitor, find_insert_before.
  by rewrite Hcls, Hv, (replace_found_first _ _ before h after H0 Hh).
Qed.

Lemma insertAdmonitor_before_header_witness :
  let content := Element [js "view-content"] [] None [] in
  let header := Element [VIEW_HEADER_CLS] [] None [Element [js "view-header-title"] [] None []] in
  let v := {| containerEl := [Element [js "resize-handle"] [] None []; header; content] |} in
  insertAdmonitor v (js "old") (js "error")
  = ({| containerEl :=
          [Element [js "resize-handle"] [] None [];
           Element [ADMONITOR_CLS; ADMONITOR_ERR_CLS] (js "old")
             (Some (OpenSettingTab (js "obsidian-task-admonitor"))) [];
           header; content] |},
     Return tt).
Proof.
  exact (insertAdmonitor_before_header
           {| containerEl :=
                [Element [js "resize-handle"] [] None [];
                 Element [VIEW_HEADER_CLS] [] None
                   [Element [js "view-header-title"] [] None []];
                 Element [js "view-content"] [] None []] |}
           (js "old") (js "error") [ADMONITOR_CLS; ADMONITOR_ERR_CLS]
           [Element [js "resize-handle"] [] None []]
           [Element [js "view-content"] [] None []]
           (Element [VIEW_HEADER_CLS] [] None [Element [js "view-header-title"] [] None []])
           eq_refl eq_refl eq_refl eq_refl).
Defined.

(** The outcomes of an insertion, by the kind and by what [find] returns. *)
Lemma insertAdmonitor_cases (v : ItemView) (text type : jsstring) :
  match kind_classes type, find VIEW_HEADER_CLS (containerEl v) with
  | None, _ => insertAdmonitor v text type = (v, Throw (ExhaustiveError type))
  | Some _, None => insertAdmonitor v text type = (v, Throw TypeError)
  | Some _, Some _ => exists v', insertAdmonitor v text type = (v', Return tt)
  end.
Proof.
  unfold insertAdmonitor, find_insert_before.
  destruct (kind_classes type) as [cls|]; [|done].
  destruct (find VIEW_HEADER_CLS (containerEl v)) eqn:Hfind.
  - destruct (replace_found _ _ _) eqn:Hr; [by eexists|].
    apply (proj2 (replace_found_None _ _)), (proj2 (find_None _)) in Hr. congruence.
  - apply (proj2 (find_None _)), (proj2 (replace_found_None VIEW_HEADER_CLS
      (fun x => [Element cls text (Some (OpenSettingTab (js "obsidian-task-admonitor"))) [];
                 x]))) in Hfind.
    by rewrite Hfind.
Qed.

(** X8: the three outcomes of insertAdmonitor.  A kind other than [warning]
    and [error] throws an ExhaustiveError, whether or not the view has a
    header; a known kind on a view without element of class [view-header]
    throws the TypeError of a call on null; in both cases the view is left
    as it was.  A known kind on a view with a header returns. *)
Theorem insertAdmonitor_outcome (v : ItemView) (text type : jsstring) :
  match kind_classes type, find VIEW_HEADER_CLS (containerEl v) with
  | None, _ => insertAdmonitor v text type = (v, Throw (ExhaustiveError type))
  | Some _, None => insertAdmonitor v text type = (v, Throw TypeError)
  | Some _, Some _ => exists v', insertAdmonitor v text type = (v', Return tt)
  end.
Proof. apply insertAdmonitor_cases. Qed.

(** X9: removeAdmonitor undoes insertAdmonitor: on a view that hosts no
    banner, an insertion that returns followed by a removal gives back the
    view as it was, element for element. *)
Theorem insertAdmonitor_then_removeAdmonitor
    (v v' : ItemView) (text type : jsstring) :
  banners v = [] ->
  insertAdmonitor v text type = (v', Return tt) ->
  removeAdmonitor v' = v.
Proof. apply removeAdmonitor_insertAdmonitor. Qed.

Lemma insertAdmonitor_then_removeAdmonitor_witness :
  let v := {| containerEl :=
                [Element [js "workspace-leaf-content"] [] None
                   [Element [VIEW_HEADER_CLS] [] None [];
                    Element [js "view-content"] (js "text") None []]] |} in
  let v' := (insertAdmonitor v (js "old") (js "warning")).1 in
  banners v = []
  /\ banners v' = [([ADMONITOR_CLS; ADMONITOR_WARNING_CLS], js "old")]
  /\ removeAdmonitor v' = v.
Proof.
  split; [reflexivity|]. split; [reflexivity|].
  apply (insertAdmonitor_then_removeAdmonitor _ _ (js "old") (js "warning"));
    reflexivity.
Defined.

(** The element found is the first of its class in document order: nothing of
    the class stands before it. *)
Lemma replace_found_first_labels c g :
  (forall e e', replace_found_element c g e = Some e' ->
     exists x l2, has_class c x = true
       /\ labels_of c (children e) = labels_of_element c x ++ l2
       /\ labels_of c (children e') = labels_of c (g x) ++ l2)
  /\ (forall f f', replace_found c g f = Some f' ->
        exists x l2, has_class c x = true
          /\ labels_of c f = labels_of_element c x ++ l2
          /\ labels_of c f' = labels_of c (g x) ++ l2).
Proof.
  set (Pe := fun e => forall e', replace_found_element c g e = Some e' ->
     exists x l2, has_class c x = true
       /\ labels_of c (children e) = labels_of_element c x ++ l2
       /\ labels_of c (children e') = labels_of c (g x) ++ l2).
  assert (Hf : forall f, Forall Pe f -> forall f', replace_found c g f = Some f' ->
        exists x l2, has_class c x = true
          /\ labels_of c f = labels_of_element c x ++ l2
          /\ labels_of c f' = labels_of c (g x) ++ l2).
  { induction 1 as [|y r Hy _ IH]; intros f'; [done|].
    rewrite replace_found_cons. destruct (has_class c y) eqn:Hcy.
    - intros [= <-]. exists y, (labels_of c r). split; [done|].
      by rewrite labels_of_app, labels_of_cons.
    - destruct (replace_found_element c g y) as [y'|] eqn:Hry.
      + intros [= <-]. destruct (Hy y' Hry) as (x & l2 & Hx & H1 & H2).
        exists x, (l2 ++ labels_of c r). split; [done|].
        rewrite !labels_of_cons, (labels_of_element_eq c y), (labels_of_element_eq c y').
        rewrite (has_class_classes c y y' (replace_found_element_classes _ _ _ _ Hry)), Hcy.
        simpl. rewrite H1, H2. by rewrite <- !app_assoc.
      + destruct (replace_found c g r) as [r'|]; [|done]. intros [= <-].
        destruct (IH r' eq_refl) as (x & l2 & Hx & H1 & H2).
        exists x, l2. split; [done|].
        apply (proj1 (replace_found_None c g) y) in Hry.
        assert (labels_of_element c y = []) as Hnil.
        { apply length_zero_iff_nil.
          rewrite (proj1 (length_labels_of c)), count_element_eq, Hcy, Hry. done. }
        rewrite !labels_of_cons, Hnil. simpl. by rewrite H1, H2. }
  assert (He : forall e, Pe e).
  { induction e as [cls text h ch IH] using element_forest_ind. intros e'.
    rewrite replace_found_element_eq. cbn [classes textContent children].
    destruct (replace_found c g ch) as [ch'|] eqn:Hch; [|done]. intros [= <-].
    exact (Hf ch IH ch' Hch). }
  split; [exact He|]. intros f. apply Hf, Forall_forall. auto.
Qed.

Lemma replace_found_below c g before cls text h ch ch' after :
  count c before = 0%nat ->
  has_class c (Element cls text h ch) = false ->
  replace_found c g ch = Some ch' ->
  replace_found c g (before ++ Element cls text h ch :: after)
  = Some (before ++ Element cls text h ch' :: after).
Proof.
  intros H0 Hc Hch. induction before as [|x r IH]; simpl.
  - rewrite replace_found_cons, Hc, replace_found_element_eq. cbn [children].
    by rewrite Hch.
  - rewrite count_cons in H0.
    assert (count_element c x = 0%nat) as [Hx Hchx]%zero_count_element by lia.
    rewrite replace_found_cons, Hx.
    apply (proj1 (replace_found_None c g) x) in Hchx as ->.
    rewrite IH by lia. done.
Qed.

(** The forest with the first element of the class replaced is what
    [replace_found] returns, and no other. *)
Lemma replaced_first_replace_found c g f f' :
  replaced_first c g f f' <-> replace_found c g f = Some f'.
Proof.
  split; [|apply replace_found_replaced_first].
  induction 1 as [before x after H0 Hx|before cls text h ch ch' after H0 Hc _ IH].
  - by apply replace_found_first.
  - by apply replace_found_below.
Qed.

(** X10: removeAdmonitor takes away the first banner in document order, with
    what is inside it, and nothing else: the view afterwards is the view
    with that one element gone from among its siblings and every other
    element where it was, and the banners that follow the first one stay.
    For a banner among the children of the container with no banner before
    it, what remains are the children before it and after it.  A view
    without banner is left as it is. *)
Theorem removeAdmonitor_removes_first_banner (v : ItemView) :
  match banners v with
  | [] => removeAdmonitor v = v
  | first :: others =>
      (forall f',
          replaced_first ADMONITOR_CLS (fun _ => []) (containerEl v) f'
          <-> f' = containerEl (removeAdmonitor v))
      /\ exists x inside,
           has_class ADMONITOR_CLS x = true
           /\ first = label x
           /\ inside = labels_of ADMONITOR_CLS (children x)
           /\ others = inside ++ banners (removeAdmonitor v)
  end
  /\ (forall before x after,
        containerEl v = before ++ x :: after ->
        count ADMONITOR_CLS before = 0%nat ->
        has_class ADMONITOR_CLS x = true ->
        containerEl (removeAdmonitor v) = before ++ after).
Proof.
  split.
  - destruct (banners v) as [|first others] eqn:Hb; [by apply removeAdmonitor_none|].
    unfold banners, removeAdmonitor, find_remove in *. simpl.
    destruct (replace_found ADMONITOR_CLS _ (containerEl v)) as [f'|] eqn:Hr; simpl.
    + split.
      * intros f''. rewrite replaced_first_replace_found, Hr.
        split; [by intros [= <-]|by intros ->].
      * apply (proj2 (replace_found_first_labels _ _)) in Hr as (x & l2 & Hx & H1 & H2).
        rewrite H1, labels_of_element_eq, Hx in Hb. simpl in Hb, H2.
        injection Hb as <- <-. exists x, (labels_of ADMONITOR_CLS (children x)).
        by rewrite H2.
    + apply (proj2 (replace_found_None _ _)) in Hr.
      rewrite <- (proj2 (length_labels_of _)), Hb in Hr. done.
  - intros before x after Hv H0 Hx. unfold removeAdmonitor, find_remove. simpl.
    by rewrite Hv, (replace_found_first _ (fun _ => []) before x after H0 Hx).
Qed.

(** X11: an insertion that returns changes nothing but the banner it adds:
    for every class other than the three banner classes, the elements of that
    class, their class lists and their texts are after the insertion what
    they were before, in the same order. *)
Theorem insertAdmonitor_keeps_other_elements
    (v v' : ItemView) (text type c : jsstring) :
  insertAdmonitor v text type = (v', Return tt) ->
  c ∉ [ADMONITOR_CLS; ADMONITOR_WARNING_CLS; ADMONITOR_ERR_CLS] ->
  labels_of c (containerEl v') = labels_of c (containerEl v).
Proof.
  unfold insertAdmonitor. intros H Hc.
  destruct (kind_classes type) as [cls|] eqn:Hcls; [|done].
  destruct (find_insert_before _ _ _) as [f'|] eqn:Hf; [|done].
  injection H as <-. simpl.
  apply (proj2 (replace_found_labels _ _ c)) in Hf as (x & l1 & l2 & _ & H1 & H2).
  rewrite H1, H2, !labels_of_cons, labels_of_element_eq. cbn [children].
  assert (has_class c (Element cls text
            (Some (OpenSettingTab (js "obsidian-task-admonitor"))) []) = false) as ->.
  { unfold has_class. apply bool_decide_eq_false_2. cbn [classes]. intros Hin.
    apply Hc. revert Hin. unfold kind_classes in Hcls.
    destruct (jsstring_eqb type (js "warning"));
      [injection Hcls as <-; rewrite !elem_of_cons; tauto|].
    destruct (jsstring_eqb type (js "error"));
      [injection Hcls as <-; rewrite !elem_of_cons; tauto|done]. }
  unfold labels_of. simpl. by rewrite app_nil_r.
Qed.

Lemma insertAdmonitor_keeps_other_elements_witness :
  let v := {| containerEl :=
                [Element [VIEW_HEADER_CLS] (js "title") None [];
                 Element [js "view-content"] (js "text") None []] |} in
  let v' := (insertAdmonitor v (js "old") (js "warning")).1 in
  (js "view-content" ∉ [ADMONITOR_CLS; ADMONITOR_WARNING_CLS; ADMONITOR_ERR_CLS])
  /\ labels_of (js "view-content") (containerEl v')
     = labels_of (js "view-content") (containerEl v).
Proof.
  split; [compute_done|].
  apply (insertAdmonitor_keeps_other_elements _ _ (js "old") (js "warning"));
    [reflexivity|compute_done].
Defined.

(** ** The outcome of a run *)

Lemma exec_lastUpdated_Some tz settings v lastUpdated now :
  exec_lastUpdated tz settings v (Some lastUpdated) now
  = if number_ge (diff_day tz (Instant now) lastUpdated)
         (minNumberOfDaysToShowWarning settings)
    then insertAdmonitor v
           (warning_text tz settings (diff_day tz (Instant now) lastUpdated) lastUpdated)
           (js "warning")
    else (v, Return tt).
Proof. reflexivity. Qed.

(** What a run on a view and a file comes to, by the day count between its
    two readings of the clock and by the header of the view. *)
Lemma exec_cases (tz : Z -> Z) (settings : Settings) (V : Type)
    (now1 now2 : Z) (v : ItemView) (x : V) :
  (length (banners v) <= 1)%nat ->
  let numberOfDays := diff_day tz (Instant now2) (Instant now1) in
  let cleared := removeAdmonitor v in
  let out := exec tz settings now1 now2 (Some v) (Some x) in
  banners cleared = []
  /\ if number_ge numberOfDays (minNumberOfDaysToShowWarning settings) then
       match find VIEW_HEADER_CLS (containerEl cleared) with
       | Some _ =>
           exists v',
             out = (Some v', Return tt)
             /\ banners v' = [([ADMONITOR_CLS; ADMONITOR_WARNING_CLS],
                               warning_text tz settings numberOfDays (Instant now1))]
       | None => out = (Some cleared, Throw TypeError)
       end
     else out = (Some cleared, Return tt).
Proof.
  intros Hle. cbv zeta. pose proof (removeAdmonitor_clears v Hle) as Hclear.
  split; [done|]. unfold exec. rewrite exec_lastUpdated_Some.
  destruct (number_ge _ _); [|done].
  pose proof (insertAdmonitor_cases (removeAdmonitor v)
    (warning_text tz settings (diff_day tz (Instant now2) (Instant now1)) (Instant now1))
    (js "warning")) as Hins.
  change (kind_classes (js "warning"))
    with (Some [ADMONITOR_CLS; ADMONITOR_WARNING_CLS]) in Hins.
  destruct (find VIEW_HEADER_CLS (containerEl (removeAdmonitor v))).
  - destruct Hins as [v' Hv']. exists v'. rewrite Hv'. split; [done|].
    apply insertAdmonitor_adds in Hv' as (cls & l1 & l2 & [= <-] & H1 & H2).
    rewrite Hclear in H1. symmetry in H1. apply app_eq_nil in H1 as [-> ->]. done.
  - by rewrite Hins.
Qed.

(** X12: what a run on a view that hosts at most one banner comes to.  The
    old banner is removed in every case.  When the day count between the two
    readings of the clock is below minNumberOfDaysToShowWarning the run
    returns and the view hosts no banner.  When it is not, the run returns
    with the warning banner as the only one if the view has a header; if the
    view has none, the run throws a TypeError after the old banner is gone. *)
Theorem exec_outcome (getTimezoneOffset : Z -> Z) (settings : Settings) (V : Type)
    (now1 now2 : Z) (v : ItemView) (x : V) :
  (length (banners v) <= 1)%nat ->
  let numberOfDays := diff_day getTimezoneOffset (Instant now2) (Instant now1) in
  let cleared := removeAdmonitor v in
  let out := exec getTimezoneOffset settings now1 now2 (Some v) (Some x) in
  banners cleared = []
  /\ if number_ge numberOfDays (minNumberOfDaysToShowWarning settings) then
       match find VIEW_HEADER_CLS (containerEl cleared) with
       | Some _ =>
           exists v',
             out = (Some v', Return tt)
             /\ banners v' = [([ADMONITOR_CLS; ADMONITOR_WARNING_CLS],
                               warning_text getTimezoneOffset settings numberOfDays
                                 (Instant now1))]
       | None => out = (Some cleared, Throw TypeError)
       end
     else out = (Some cleared, Return tt).
Proof. apply exec_cases. Qed.

Lemma exec_outcome_witness :
  let settings :=
    {| minNumberOfDaysToShowWarning := 0;
       messageTemplate := messageTemplate DEFAULT_SETTINGS;
       showWarningIfDataIsNotFound := false;
       triggerToUpdate := js "On open file";
       dateToBeReferred := js "Modified time";
       frontMatterKey := js "updated";
       captureGroupPattern := captureGroupPattern DEFAULT_SETTINGS;
       excludePrefixPathPatterns := [] |} in
  let v := {| containerEl :=
                [Element [ADMONITOR_CLS; ADMONITOR_WARNING_CLS] (js "old") None [];
                 Element [js "view-content"] [] None []] |} in
  let cleared := {| containerEl := [Element [js "view-content"] [] None []] |} in
  (length (banners v) <= 1)%nat
  /\ removeAdmonitor v = cleared
  /\ ReferenceHost.exec settings 1704067200000 1704067200007 (Some v) (Some tt)
     = (Some cleared, Throw TypeError).
Proof.
  split; [vm_compute; lia|]. split; [reflexivity|].
  exact (proj2 (exec_outcome ReferenceHost.getTimezoneOffset
           {| minNumberOfDaysToShowWarning := 0;
              messageTemplate := messageTemplate DEFAULT_SETTINGS;
              showWarningIfDataIsNotFound := false;
              triggerToUpdate := js "On open file";
              dateToBeReferred := js "Modified time";
              frontMatterKey := js "updated";
              captureGroupPattern := captureGroupPattern DEFAULT_SETTINGS;
              excludePrefixPathPatterns := [] |}
           unit 1704067200000%Z 1704067200007%Z
           {| containerEl :=
                [Element [ADMONITOR_CLS; ADMONITOR_WARNING_CLS] (js "old") None [];
                 Element [js "view-content"] [] None []] |}
           tt ltac:(vm_compute; lia))).
Defined.



(** X14: the text of the warning is the template with the first
    [${numberOfDays}] replaced by the day count and then the first [${date}]
    replaced by the date as YYYY-MM-DD.  Both are put in as they are, since
    neither holds a dollar sign; later occurrences of a placeholder stay,
    and a template without a placeholder is shown unchanged. *)
Theorem warning_text_replaces_first_placeholders
    (getTimezoneOffset : Z -> Z) (settings : Settings)
    (numberOfDays : number) (lastUpdated : Dayjs) :
  exists t,
    first_occurrence_replaced (messageTemplate settings) (js "${numberOfDays}")
      (String_of_number numberOfDays) t
    /\ first_occurrence_replaced t (js "${date}")
         (format_YYYY_MM_DD getTimezoneOffset lastUpdated)
         (warning_text getTimezoneOffset settings numberOfDays lastUpdated).
Proof.
  eexists. split.
  - apply replace_first_occurrence, String_of_number_no_dollar.
  - apply replace_first_occurrence, format_no_dollar.
Qed.

(** ** Listeners *)

Lemma plugin_listeners_app l r :
  plugin_listeners (l ++ [r])
  = plugin_listeners l ++ (if is_plugin_callback r then [r] else []).
Proof.
  unfold plugin_listeners. rewrite List.filter_app. simpl.
  by destruct (is_plugin_callback r).
Qed.

Lemma other_listeners_app l r :
  other_listeners (l ++ [r])
  = other_listeners l ++ (if is_plugin_callback r then [] else [r]).
Proof.
  unfold other_listeners. rewrite List.filter_app. simpl.
  by destruct (is_plugin_callback r).
Qed.

(** Registrations of others only are all there is. *)
Lemma other_listeners_all events :
  Forall (fun r => is_plugin_callback r = false) events -> other_listeners events = events.
Proof.
  induction 1 as [|r l Hr _ IH]; [done|]. unfold other_listeners in *. simpl.
  by rewrite Hr, IH.
Qed.

Lemma plugin_listeners_nil events :
  plugin_listeners events = [] <-> Forall (fun r => is_plugin_callback r = false) events.
Proof.
  unfold plugin_listeners. induction events as [|r l IH]; simpl.
  - split; [constructor|done].
  - destruct (is_plugin_callback r) eqn:Hr.
    + split; [done|]. intros H. inversion H; congruence.
    + rewrite IH. split; [by constructor|]. intros H. by inversion H.
Qed.

Lemma plugin_listeners_other events : plugin_listeners (other_listeners events) = [].
Proof.
  apply plugin_listeners_nil. unfold other_listeners.
  induction events as [|r l IH]; simpl; [constructor|].
  destruct (is_plugin_callback r) eqn:Hr; simpl; [done|by constructor].
Qed.

Lemma other_listeners_other events :
  other_listeners (other_listeners events) = other_listeners events.
Proof.
  apply other_listeners_all, plugin_listeners_nil, plugin_listeners_other.
Qed.

Lemma Forall_other_listeners (P : EventRef -> Prop) events :
  Forall P events -> Forall P (other_listeners events).
Proof.
  unfold other_listeners. induction 1 as [|r l Hr _ IH]; simpl; [constructor|].
  destruct (negb _); [by constructor|done].
Qed.

(** What [offref] leaves of registrations whose plugin entries are those of
    the handle: the registrations of the others. *)
Lemma offref_others u ref events :
  Forall (fun r => is_plugin_callback r = true -> ref = Some r) events ->
  Forall (fun r => is_plugin_callback r = false ->
                   Forall (fun h => ref_id r <> ref_id h) (option_list ref)) events ->
  (offref u ref events).1 = other_listeners events.
Proof.
  intros Hp Ho. destruct ref as [h|]; simpl.
  - unfold other_listeners.
    induction events as [|r l IH]; [done|]. inversion Hp as [|? ? Hpr Hpl]; subst.
    inversion Ho as [|? ? Hor Hol]; subst. simpl.
    rewrite (IH Hpl Hol). destruct (is_plugin_callback r) eqn:Hr; simpl.
    + specialize (Hpr eq_refl) as [= ->]. by rewrite Nat.eqb_refl.
    + specialize (Hor eq_refl). inversion Hor as [|? ? Hne _]; subst.
      apply Nat.eqb_neq in Hne as ->. done.
  - symmetry. apply other_listeners_all.
    eapply Forall_impl; [exact Hp|]. simpl. intros r Hr.
    destruct (is_plugin_callback r); [by specialize (Hr eq_refl)|done].
Qed.

Lemma offref_result u ref events :
  (offref u ref events).2 = match ref with Some _ => Return tt | None => u end.
Proof. by destruct ref. Qed.

Lemma tracked_workspace p app :
  tracked p app ->
  Forall (fun r => is_plugin_callback r = true -> fileOpenHandler p = Some r)
    (workspace app)
  /\ Forall (fun r => is_plugin_callback r = false ->
                      Forall (fun h => ref_id r <> ref_id h)
                        (option_list (fileOpenHandler p))) (workspace app).
Proof.
  intros (_ & Ho & Hw & _). split; [done|].
  apply Forall_app in Ho as [Ho _]. eapply Forall_impl; [exact Ho|]. simpl.
  intros r Hr Hpl. specialize (Hr Hpl). by apply Forall_app in Hr as [Hr _].
Qed.

Lemma tracked_vault p app :
  tracked p app ->
  Forall (fun r => is_plugin_callback r = true -> fileSaveHandler p = Some r) (vault app)
  /\ Forall (fun r => is_plugin_callback r = false ->
                      Forall (fun h => ref_id r <> ref_id h)
                        (option_list (fileSaveHandler p))) (vault app).
Proof.
  intros (_ & Ho & _ & Hv). split; [done|].
  apply Forall_app in Ho as [_ Ho]. eapply Forall_impl; [exact Ho|]. simpl.
  intros r Hr Hpl. specialize (Hr Hpl). by apply Forall_app in Hr as [_ Hr].
Qed.

(** The three ways of [removeListeners]: both calls of [offref] return and
    the registrations of the others remain; the first throws and nothing is
    changed; the second throws after the first took the registration of
    [fileOpenHandler] away. *)
Lemma removeListeners_cases u p app :
  tracked p app ->
  (offref_returns u p ->
   removeListeners u p app
   = (set_vault (other_listeners (vault app))
        (set_workspace (other_listeners (workspace app)) app), Return tt))
  /\ (forall e, u = Throw e -> fileOpenHandler p = None ->
        removeListeners u p app = (app, Throw e))
  /\ (forall e ref, u = Throw e -> fileOpenHandler p = Some ref ->
        fileSaveHandler p = None ->
        removeListeners u p app
        = (set_workspace (other_listeners (workspace app)) app, Throw e)).
Proof.
  intros Ht. destruct (tracked_workspace p app Ht) as [Hw1 Hw2].
  destruct (tracked_vault p app Ht) as [Hv1 Hv2].
  pose proof (offref_others u _ _ Hw1 Hw2) as Hw.
  pose proof (offref_others u _ _ Hv1 Hv2) as Hv.
  pose proof (offref_result u (fileOpenHandler p) (workspace app)) as Hrw.
  pose proof (offref_result u (fileSaveHandler p) (vault app)) as Hrv.
  unfold removeListeners.
  destruct (offref u (fileOpenHandler p) (workspace app)) as [w rw].
  change (vault (set_workspace w app)) with (vault app).
  destruct (offref u (fileSaveHandler p) (vault app)) as [v rv].
  simpl in *. subst w v. split; [|split].
  - intros Hu. unfold offref_returns in Hu.
    destruct (fileOpenHandler p), (fileSaveHandler p); subst rw rv;
      try rewrite Hu by auto; done.
  - intros e -> Ho. rewrite Ho in Hrw. by subst rw.
  - intros e ref -> Ho Hs. rewrite Ho in Hrw. rewrite Hs in Hrv. by subst rw rv.
Qed.

Lemma no_plugin_listener events r :
  plugin_listeners events = [] -> r ∈ events -> is_plugin_callback r = false.
Proof.
  intros H Hin. apply plugin_listeners_nil in H.
  by apply (proj1 (Forall_forall _ _) H).
Qed.

Ltac simpl_app :=
  cbn [workspace vault next_ref activeView data settingTabs
       set_workspace set_vault set_next_ref set_activeView set_data set_settingTabs
       settings fileOpenHandler fileSaveHandler fst snd] in *.

(** [addListeners] on registrations that hold none of the plugin. *)
Lemma addListeners_spec p app :
  tracked p app ->
  plugin_listeners (workspace app) = [] ->
  plugin_listeners (vault app) = [] ->
  let out := addListeners p app in
  listening out.1 out.2 /\ tracked out.1 out.2
  /\ settings out.1 = settings p
  /\ other_listeners (workspace out.2) = other_listeners (workspace app)
  /\ other_listeners (vault out.2) = other_listeners (vault app)
  /\ activeView out.2 = activeView app
  /\ data out.2 = data app
  /\ settingTabs out.2 = settingTabs app.
Proof.
  intros (Hb & Ho & _ & _) Hw Hv. cbv zeta.
  unfold addListeners, workspace_on, vault_on, on. simpl.
  rewrite !Forall_forall in Hb, Ho.
  assert (Hold : forall r, r ∈ workspace app ++ vault app ->
                 is_plugin_callback r = false /\ (ref_id r < next_ref app)%nat).
  { intros r Hin. split.
    - apply elem_of_app in Hin as [Hin|Hin]; eauto using no_plugin_listener.
    - apply Hb. rewrite app_assoc. apply elem_of_app. by left. }
  destruct (jsstring_eqb (triggerToUpdate (settings p)) (js "On open or save file"))
    eqn:Htrigger; unfold listening, tracked, handlers; simpl_app; cbn [option_list option_rect].
  - split; [|split; [|by rewrite !other_listeners_app, !app_nil_r]].
    + split.
      * eexists. rewrite plugin_listeners_app, Hw. by repeat split.
      * rewrite Htrigger. eexists. rewrite plugin_listeners_app, Hv. by repeat split.
    + rewrite !Forall_forall. repeat split.
      * intros r. rewrite !elem_of_app, !elem_of_cons, !elem_of_nil.
        intros [[Hin| [->|[]]]|[[Hin|[->|[]]]|[[->|[]]|[->|[]]]]]; simpl; try lia.
        -- assert (r ∈ workspace app ++ vault app) as [_ ?]%Hold
             by (apply elem_of_app; by left). lia.
        -- assert (r ∈ workspace app ++ vault app) as [_ ?]%Hold
             by (apply elem_of_app; by right). lia.
      * intros r. rewrite !elem_of_app, !elem_of_cons, !elem_of_nil.
        intros [[Hin| [->|[]]]|[Hin|[->|[]]]] Hpl; try done.
        -- assert (r ∈ workspace app ++ vault app) as [_ ?]%Hold
             by (apply elem_of_app; by left).
           repeat constructor; simpl; lia.
        -- assert (r ∈ workspace app ++ vault app) as [_ ?]%Hold
             by (apply elem_of_app; by right).
           repeat constructor; simpl; lia.
      * intros r. rewrite elem_of_app, elem_of_cons, elem_of_nil.
        intros [Hin|[->|[]]] Hpl; [|done].
        rewrite (no_plugin_listener _ _ Hw Hin) in Hpl. done.
      * intros r. rewrite elem_of_app, elem_of_cons, elem_of_nil.
        intros [Hin|[->|[]]] Hpl; [|done].
        rewrite (no_plugin_listener _ _ Hv Hin) in Hpl. done.
  - split; [|split; [|by rewrite !other_listeners_app, !app_nil_r]].
    + split.
      * eexists. rewrite plugin_listeners_app, Hw. by repeat split.
      * by rewrite Htrigger.
    + unfold handlers in *. rewrite !Forall_forall. repeat split.
      * intros r. rewrite !elem_of_app, !elem_of_cons, !elem_of_nil.
        intros [[Hin| [->|[]]]|[Hin|[[->|[]]|Hin]]]; simpl; try lia.
        -- assert (r ∈ workspace app ++ vault app) as [_ ?]%Hold
             by (apply elem_of_app; by left). lia.
        -- assert (r ∈ workspace app ++ vault app) as [_ ?]%Hold
             by (apply elem_of_app; by right). lia.
        -- assert (ref_id r < next_ref app)%nat; [|lia].
           apply Hb. rewrite !elem_of_app. auto.
      * intros r. rewrite !elem_of_app, !elem_of_cons, !elem_of_nil.
        intros [[Hin| [->|[]]]|Hin] Hpl; try done.
        -- assert (r ∈ workspace app ++ vault app) as Hin' by (apply elem_of_app; by left).
           destruct (Hold r Hin') as [_ ?].
           specialize (Ho r Hin' Hpl). apply Forall_app in Ho as [_ Ho].
           constructor; [simpl; lia|done].
        -- assert (r ∈ workspace app ++ vault app) as Hin' by (apply elem_of_app; by right).
           destruct (Hold r Hin') as [_ ?].
           specialize (Ho r Hin' Hpl). apply Forall_app in Ho as [_ Ho].
           constructor; [simpl; lia|done].
      * intros r. rewrite elem_of_app, elem_of_cons, elem_of_nil.
        intros [Hin|[->|[]]] Hpl; [|done].
        rewrite (no_plugin_listener _ _ Hw Hin) in Hpl. done.
      * intros r Hin Hpl. rewrite (no_plugin_listener _ _ Hv Hin) in Hpl. done.
Qed.

Lemma Forall_kept (P : EventRef -> Prop) events events' :
  events' = events \/ events' = other_listeners events ->
  Forall P events -> Forall P events'.
Proof. intros [->| ->]; [done|apply Forall_other_listeners]. Qed.

(** Taking registrations of the plugin away keeps track. *)
Lemma tracked_kept p app w v :
  tracked p app ->
  w = workspace app \/ w = other_listeners (workspace app) ->
  v = vault app \/ v = other_listeners (vault app) ->
  tracked p (set_vault v (set_workspace w app)).
Proof.
  intros (Hb & Ho & Hw & Hv) Hw' Hv'. unfold tracked. simpl_app.
  apply Forall_app in Hb as [Hb1 [Hb2 Hb3]%Forall_app].
  apply Forall_app in Ho as [Ho1 Ho2].
  rewrite !Forall_app.
  repeat split;
    first [done
          |by eapply Forall_kept; [exact Hw'|]
          |by eapply Forall_kept; [exact Hv'|]].
Qed.

Lemma removeListeners_kept u p app :
  tracked p app ->
  let out := removeListeners u p app in
  tracked p out.1
  /\ other_listeners (workspace out.1) = other_listeners (workspace app)
  /\ other_listeners (vault out.1) = other_listeners (vault app)
  /\ next_ref out.1 = next_ref app /\ activeView out.1 = activeView app
  /\ data out.1 = data app /\ settingTabs out.1 = settingTabs app.
Proof.
  intros Ht. destruct (removeListeners_cases u p app Ht) as (Ha & Hb & Hc). cbv zeta.
  destruct u as [[]|e].
  - rewrite Ha by done. simpl_app. rewrite !other_listeners_other.
    split; [apply tracked_kept; auto|done].
  - destruct (fileOpenHandler p) as [ref|] eqn:Ho.
    + destruct (fileSaveHandler p) eqn:Hs.
      * rewrite Ha by (intros [?|?]; congruence). simpl_app.
        rewrite !other_listeners_other. split; [apply tracked_kept; auto|done].
      * rewrite (Hc e ref) by done. simpl_app. rewrite !other_listeners_other.
        split; [|done].
        replace (set_workspace (other_listeners (workspace app)) app)
          with (set_vault (vault app)
                  (set_workspace (other_listeners (workspace app)) app))
          by by destruct app.
        apply tracked_kept; auto.
    + rewrite (Hb e) by done. done.
Qed.

(** X15: saveSettings and loadSettings are a round trip: what loadSettings
    assigns after a call of saveSettings is the settings object that call
    stored, also when the call throws later on.  With nothing stored,
    loadSettings assigns DEFAULT_SETTINGS.  With some fields stored, each of
    the eight fields is the stored one if there is one and else its default:
    180, the default template, false, [On open file], [Modified time],
    [updated], the default pattern and no exclusion. *)
Theorem loadSettings_after_saveSettings :
  (forall getTimezoneOffset offref_undefined p now1 now2 app,
      loadSettings (saveSettings getTimezoneOffset offref_undefined p now1 now2 app).1.2
      = settings p)
  /\ (forall app, data app = None -> loadSettings app = DEFAULT_SETTINGS)
  /\ (forall app d,
        data app = Some d ->
        minNumberOfDaysToShowWarning (loadSettings app)
        = default 180%Z (data_minNumberOfDaysToShowWarning d)
        /\ messageTemplate (loadSettings app)
           = default (js "The content has been no updated for over ${numberOfDays} days")
               (data_messageTemplate d)
        /\ showWarningIfDataIsNotFound (loadSettings app)
           = default false (data_showWarningIfDataIsNotFound d)
        /\ triggerToUpdate (loadSettings app)
           = default (js "On open file") (data_triggerToUpdate d)
        /\ dateToBeReferred (loadSettings app)
           = default (js "Modified time") (data_dateToBeReferred d)
        /\ frontMatterKey (loadSettings app)
           = default (js "updated") (data_frontMatterKey d)
        /\ captureGroupPattern (loadSettings app)
           = default (js "^// (?<date>[0-9]{4}/[0-9]{2}/[0-9]{2})")
               (data_captureGroupPattern d)
        /\ excludePrefixPathPatterns (loadSettings app)
           = default [] (data_excludePrefixPathPatterns d)).
Proof.
  split; [|split].
  - intros tz u p now1 now2 app. unfold saveSettings.
    assert (Hdata : forall q a, data (removeListeners u q a).1 = data a).
    { intros q a. unfold removeListeners.
      destruct (offref u (fileOpenHandler q) (workspace a)) as [w [[]|e]]; [|done].
      destruct (offref u (fileSaveHandler q) _) as [v [[]|e]]; done. }
    specialize (Hdata p (set_data (Some (Data_of (settings p))) app)).
    destruct (removeListeners u p _) as [app1 [[]|e]]; simpl in Hdata.
    + assert (Hadd : data (addListeners p app1).2 = data app1
                     /\ settings (addListeners p app1).1 = settings p).
      { unfold addListeners, workspace_on, vault_on, on. simpl.
        by destruct (jsstring_eqb _ _). }
      destruct (addListeners p app1) as [p2 app2]. simpl in Hadd. destruct Hadd as [Hd Hs].
      unfold exec_active_view. destruct (exec _ _ _ _ _ _) as [view r]. simpl.
      unfold loadSettings. simpl. rewrite Hd, Hdata. by destruct (settings p).
    + simpl. unfold loadSettings. rewrite Hdata. by destruct (settings p).
  - intros app Hd. unfold loadSettings. by rewrite Hd.
  - intros app d Hd. unfold loadSettings. rewrite Hd. repeat split.
Qed.

(** X16: saveSettings leaves the plugin with one registration for
    [active-leaf-change] and, exactly when the trigger is
    [On open or save file], one for [modify], whatever the settings and the
    registrations were before: the old ones are taken away, so repeated
    calls neither pile listeners up nor leave a [modify] listener behind
    after the trigger went back to [On open file].  The plugin keeps track
    of its registrations.  No [offref] gets an undefined handle, or the
    host lets that pass. *)
Theorem saveSettings_listens_once
    (getTimezoneOffset : Z -> Z) (offref_undefined : result unit)
    (p : OldNoteAdmonitorPlugin) (now1 now2 : Z) (app : App) :
  tracked p app ->
  offref_returns offref_undefined p ->
  let out := saveSettings getTimezoneOffset offref_undefined p now1 now2 app in
  listening out.1.1 out.1.2
  /\ tracked out.1.1 out.1.2
  /\ settings out.1.1 = settings p.
Proof.
  intros Ht Hu. cbv zeta. unfold saveSettings.
  assert (Ht' : tracked p (set_data (Some (Data_of (settings p))) app)) by exact Ht.
  destruct (removeListeners_cases offref_undefined p _ Ht') as (Hr & _).
  rewrite (Hr Hu).
  match goal with |- context [addListeners p ?a] =>
    destruct (addListeners_spec p a) as (Hl & Htr & Hs & _)
  end.
  - apply (tracked_kept p (set_data (Some (Data_of (settings p))) app)); auto.
  - apply plugin_listeners_other.
  - apply plugin_listeners_other.
  - destruct (addListeners p _) as [p2 app2]. unfold exec_active_view.
    destruct (exec _ _ _ _ _ _) as [view r]. simpl in *. done.
Qed.

Lemma saveSettings_listens_once_witness :
  let other := {| ref_id := 0; ref_name := js "file-open"; ref_fn := Other 0 |} in
  let open := {| ref_id := 1; ref_name := js "active-leaf-change"; ref_fn := ExecLeafView |} in
  let save := {| ref_id := 2; ref_name := js "modify"; ref_fn := ExecFile |} in
  let p := {| settings := DEFAULT_SETTINGS; fileOpenHandler := Some open;
              fileSaveHandler := Some save |} in
  let app := {| workspace := [other; open]; vault := [save]; next_ref := 3;
                activeView := None; data := None; settingTabs := 1 |} in
  let out := saveSettings ReferenceHost.getTimezoneOffset (Throw TypeError) p
               1704067200000 1704067200007 app in
  tracked p app
  /\ workspace out.1.2
     = [other; {| ref_id := 3; ref_name := js "active-leaf-change"; ref_fn := ExecLeafView |}]
  /\ vault out.1.2 = []
  /\ listening out.1.1 out.1.2.
Proof.
  cbv zeta.
  match goal with |- tracked ?p ?app /\ _ => assert (Ht : tracked p app) end.
  { unfold tracked, handlers. simpl.
    repeat split; repeat constructor; simpl; intros; try discriminate; lia. }
  split; [exact Ht|]. split; [reflexivity|]. split; [reflexivity|].
  refine (proj1 (saveSettings_listens_once ReferenceHost.getTimezoneOffset (Throw TypeError)
                   _ 1704067200000%Z 1704067200007%Z _ Ht _)).
  intros [?|?]; discriminate.
Defined.

Lemma addListeners_others p app :
  other_listeners (workspace (addListeners p app).2) = other_listeners (workspace app)
  /\ other_listeners (vault (addListeners p app).2) = other_listeners (vault app)
  /\ activeView (addListeners p app).2 = activeView app.
Proof.
  unfold addListeners, workspace_on, vault_on, on. simpl.
  destruct (jsstring_eqb _ _); simpl; by rewrite !other_listeners_app, !app_nil_r.
Qed.

(** X17: the registrations of the host and of other plugins are never
    touched: after saveSettings and after onunload, whether they return or
    throw, and after onload, the registrations of others at the workspace
    and at the vault are those from before, in the same order. *)
Theorem other_listeners_are_kept
    (getTimezoneOffset : Z -> Z) (offref_undefined : result unit)
    (p : OldNoteAdmonitorPlugin) (now1 now2 : Z) (app : App) :
  tracked p app ->
  let saved := (saveSettings getTimezoneOffset offref_undefined p now1 now2 app).1.2 in
  let unloaded := (onunload offref_undefined p app).1 in
  let loaded := (onload getTimezoneOffset now1 now2 app).1.2 in
  (other_listeners (workspace saved) = other_listeners (workspace app)
   /\ other_listeners (vault saved) = other_listeners (vault app))
  /\ (other_listeners (workspace unloaded) = other_listeners (workspace app)
      /\ other_listeners (vault unloaded) = other_listeners (vault app))
  /\ (other_listeners (workspace loaded) = other_listeners (workspace app)
      /\ other_listeners (vault loaded) = other_listeners (vault app)).
Proof.
  intros Ht. cbv zeta. split; [|split].
  - unfold saveSettings.
    assert (Ht' : tracked p (set_data (Some (Data_of (settings p))) app)) by exact Ht.
    destruct (removeListeners_kept offref_undefined p _ Ht') as (_ & Hw & Hv & _).
    destruct (removeListeners _ _ _) as [app1 [[]|e]]; simpl in *; [|done].
    destruct (addListeners_others p app1) as (Hw2 & Hv2 & _).
    destruct (addListeners p app1) as [p2 app2]. unfold exec_active_view.
    destruct (exec _ _ _ _ _ _) as [view r]. simpl in *. by rewrite Hw2, Hv2.
  - unfold onunload.
    by destruct (removeListeners_kept offref_undefined p _ Ht) as (_ & Hw & Hv & _).
  - unfold onload, exec_active_view.
    destruct (exec _ _ _ _ _ _) as [view [[]|e]]; [|done].
    match goal with |- context [addListeners ?q ?a] =>
      destruct (addListeners_others q a) as (Hw2 & Hv2 & _);
      destruct (addListeners q a) as [p2 app2]
    end.
    simpl in *. by rewrite Hw2, Hv2.
Qed.

Lemma other_listeners_are_kept_witness :
  let other := {| ref_id := 0; ref_name := js "file-open"; ref_fn := Other 0 |} in
  let open := {| ref_id := 1; ref_name := js "active-leaf-change"; ref_fn := ExecLeafView |} in
  let p := {| settings := DEFAULT_SETTINGS; fileOpenHandler := Some open;
              fileSaveHandler := None |} in
  let app := {| workspace := [other; open]; vault := []; next_ref := 2;
                activeView := None; data := None; settingTabs := 1 |} in
  tracked p app
  /\ other_listeners
       (workspace (saveSettings ReferenceHost.getTimezoneOffset (Return tt) p
                     1704067200000 1704067200007 app).1.2)
     = [other].
Proof.
  cbv zeta.
  match goal with |- tracked ?p ?app /\ _ => assert (Ht : tracked p app) end.
  { unfold tracked, handlers. simpl.
    repeat split; repeat constructor; simpl; intros; try discriminate; lia. }
  split; [exact Ht|].
  exact (proj1 (proj1 (other_listeners_are_kept ReferenceHost.getTimezoneOffset (Return tt)
                         _ 1704067200000%Z 1704067200007%Z _ Ht))).
Defined.

(** X18: onload registers the listeners only after its first run returned.
    It loads the settings, adds the settings tab and runs on the active
    view; when that run returns, the plugin listens as its loaded settings
    say and keeps track of its registrations; when it throws, as it does on
    a view without header that is due a warning, onload throws the same
    error and no listener is registered. *)
Theorem onload_listens_after_first_run
    (getTimezoneOffset : Z -> Z) (now1 now2 : Z) (app : App) :
  plugin_listeners (workspace app) = [] ->
  plugin_listeners (vault app) = [] ->
  Forall (fun r => (ref_id r < next_ref app)%nat) (workspace app ++ vault app) ->
  let out := onload getTimezoneOffset now1 now2 app in
  let first_run :=
    exec getTimezoneOffset (loadSettings app) now1 now2 (activeView app) (activeView app) in
  settings out.1.1 = loadSettings app
  /\ settingTabs out.1.2 = S (settingTabs app)
  /\ activeView out.1.2 = first_run.1
  /\ match first_run.2 with
     | Return _ =>
         out.2 = Return tt /\ listening out.1.1 out.1.2 /\ tracked out.1.1 out.1.2
     | Throw e =>
         out.2 = Throw e
         /\ workspace out.1.2 = workspace app /\ vault out.1.2 = vault app
         /\ handlers out.1.1 = []
     end.
Proof.
  intros Hw Hv Hb. cbv zeta. unfold onload, exec_active_view. simpl_app.
  destruct (exec _ _ _ _ _ _) as [view [[]|e]]; simpl; [|done].
  match goal with |- context [addListeners ?q ?a] =>
    destruct (addListeners_spec q a) as (Hl & Htr & Hs & _ & _ & Hview & _ & Htabs);
    [| exact Hw | exact Hv | destruct (addListeners q a) as [p2 app2] ]
  end.
  - unfold tracked, handlers. simpl. rewrite app_nil_r.
    repeat split; try done.
    + apply Forall_forall. intros r _ _. constructor.
    + apply plugin_listeners_nil in Hw. eapply Forall_impl; [exact Hw|].
      simpl. congruence.
    + apply plugin_listeners_nil in Hv. eapply Forall_impl; [exact Hv|].
      simpl. congruence.
  - simpl in *. done.
Qed.

Lemma onload_listens_after_first_run_witness :
  let other := {| ref_id := 0; ref_name := js "file-open"; ref_fn := Other 0 |} in
  let view := {| containerEl := [Element [js "view-content"] [] None []] |} in
  let app := {| workspace := [other]; vault := []; next_ref := 1;
                activeView := Some view;
                data := Some {| data_minNumberOfDaysToShowWarning := Some 0%Z;
                                data_messageTemplate := None;
                                data_showWarningIfDataIsNotFound := None;
                                data_triggerToUpdate := Some (js "On open or save file");
                                data_dateToBeReferred := None;
                                data_frontMatterKey := None;
                                data_captureGroupPattern := None;
                                data_excludePrefixPathPatterns := None |};
                settingTabs := 0 |} in
  let out := onload ReferenceHost.getTimezoneOffset 1704067200000 1704067200007 app in
  out.2 = Throw TypeError
  /\ workspace out.1.2 = [other] /\ vault out.1.2 = [] /\ handlers out.1.1 = [].
Proof.
  cbv zeta.
  match goal with |- (onload ?tz ?n1 ?n2 ?app).2 = _ /\ _ =>
    pose proof (onload_listens_after_first_run tz n1 n2 app eq_refl eq_refl
                  ltac:(repeat constructor)) as H
  end.
  exact (proj2 (proj2 (proj2 H))).
Defined.

(** X19: onunload takes every registration of the plugin away and nothing
    else: what remains at the workspace and at the vault are the
    registrations of others.  The plugin keeps track of its registrations,
    and no [offref] gets an undefined handle or the host lets that pass. *)
Theorem onunload_removes_plugin_listeners
    (offref_undefined : result unit) (p : OldNoteAdmonitorPlugin) (app : App) :
  tracked p app ->
  offref_returns offref_undefined p ->
  let out := onunload offref_undefined p app in
  out.2 = Return tt
  /\ workspace out.1 = other_listeners (workspace app)
  /\ vault out.1 = other_listeners (vault app)
  /\ plugin_listeners (workspace out.1) = []
  /\ plugin_listeners (vault out.1) = []
  /\ activeView out.1 = activeView app.
Proof.
  intros Ht Hu. cbv zeta. unfold onunload.
  destruct (removeListeners_cases offref_undefined p app Ht) as (Hr & _).
  rewrite (Hr Hu). simpl. by rewrite !plugin_listeners_other.
Qed.

Lemma onunload_removes_plugin_listeners_witness :
  let other := {| ref_id := 0; ref_name := js "file-open"; ref_fn := Other 0 |} in
  let open := {| ref_id := 1; ref_name := js "active-leaf-change"; ref_fn := ExecLeafView |} in
  let changed := {| ref_id := 2; ref_name := js "modify"; ref_fn := Other 1 |} in
  let save := {| ref_id := 3; ref_name := js "modify"; ref_fn := ExecFile |} in
  let p := {| settings := DEFAULT_SETTINGS; fileOpenHandler := Some open;
              fileSaveHandler := Some save |} in
  let app := {| workspace := [other; open]; vault := [changed; save]; next_ref := 4;
                activeView := None; data := None; settingTabs := 1 |} in
  let out := onunload (Throw TypeError) p app in
  tracked p app
  /\ out.2 = Return tt /\ workspace out.1 = [other] /\ vault out.1 = [changed].
Proof.
  cbv zeta.
  match goal with |- tracked ?p ?app /\ _ => assert (Ht : tracked p app) end.
  { unfold tracked, handlers. simpl.
    repeat split; repeat constructor; simpl; intros; try discriminate; lia. }
  split; [exact Ht|].
  match goal with |- (onunload ?u ?p ?app).2 = _ /\ _ =>
    destruct (onunload_removes_plugin_listeners u p app Ht) as (H1 & H2 & H3 & _)
  end.
  - intros [?|?]; discriminate.
  - exact (conj H1 (conj H2 H3)).
Defined.

(** X20: on a host whose [offref] throws when it gets undefined, a plugin
    that never registered a [modify] listener, as after onload with the
    trigger [On open file], cannot take its listeners away and put them
    back: removeListeners throws at the second [offref], after the
    [active-leaf-change] listener is gone.  saveSettings then has stored
    the settings, throws that error, registers no listener and does not run
    on the active view; onunload throws it too. *)
Theorem saveSettings_throws_on_undefined_handle
    (getTimezoneOffset : Z -> Z) (e : error)
    (p : OldNoteAdmonitorPlugin) (ref : EventRef) (now1 now2 : Z) (app : App) :
  tracked p app ->
  fileOpenHandler p = Some ref ->
  fileSaveHandler p = None ->
  let left_over := set_workspace (other_listeners (workspace app)) app in
  saveSettings getTimezoneOffset (Throw e) p now1 now2 app
  = (p, set_data (Some (Data_of (settings p))) left_over, Throw e)
  /\ onunload (Throw e) p app = (left_over, Throw e)
  /\ plugin_listeners (workspace left_over) = [].
Proof.
  intros Ht Ho Hs. cbv zeta. unfold saveSettings, onunload.
  assert (Ht' : tracked p (set_data (Some (Data_of (settings p))) app)) by exact Ht.
  destruct (removeListeners_cases (Throw e) p _ Ht') as (_ & _ & Hc).
  destruct (removeListeners_cases (Throw e) p _ Ht) as (_ & _ & Hc').
  rewrite (Hc e ref), (Hc' e ref) by done. simpl.
  by rewrite plugin_listeners_other.
Qed.

Lemma saveSettings_throws_on_undefined_handle_witness :
  let view := {| containerEl := [Element [VIEW_HEADER_CLS] [] None []] |} in
  let app := {| workspace := []; vault := []; next_ref := 0; activeView := Some view;
                data := None; settingTabs := 0 |} in
  let loaded := onload ReferenceHost.getTimezoneOffset 1704067200000 1704067200007 app in
  let out := saveSettings ReferenceHost.getTimezoneOffset (Throw TypeError) loaded.1.1
               1704067300000 1704067300007 loaded.1.2 in
  loaded.2 = Return tt
  /\ length (workspace loaded.1.2) = 1%nat
  /\ out.2 = Throw TypeError
  /\ workspace out.1.2 = [] /\ vault out.1.2 = []
  /\ data out.1.2 = Some (Data_of DEFAULT_SETTINGS).
Proof.
  cbv zeta. split; [reflexivity|]. split; [reflexivity|].
  match goal with |- (saveSettings ?tz (Throw ?e) ?p ?n1 ?n2 ?app).2 = _ /\ _ =>
    assert (Ht : tracked p app);
    [|destruct (saveSettings_throws_on_undefined_handle tz e p
                  {| ref_id := 0; ref_name := js "active-leaf-change";
                     ref_fn := ExecLeafView |} n1 n2 app Ht eq_refl eq_refl)
        as (-> & _)]
  end.
  - unfold tracked, handlers. simpl.
    repeat split; repeat constructor; simpl; intros; try discriminate; lia.
  - repeat split; reflexivity.
Defined.

(** ** The capture group *)

(** X21: with the capture-group strategy and a pattern the RegExp
    constructor accepts, findDate takes the date from the first line, in the
    order of the file, where the pattern yields a group [date] that is not
    empty; lines after it are not looked at, unlike the front matter, where
    the last line of a key wins. *)
Theorem findDate_capture_group_first_line
    (dayjs : value -> Dayjs) (RegExp_g : jsstring -> option (jsstring -> value))
    (settings : Settings) (file : TFile)
    (groups_date : jsstring -> value) (before after : list jsstring) (line : jsstring) :
  dateToBeReferred settings = js "Capture group" ->
  RegExp_g (captureGroupPattern settings) = Some groups_date ->
  split LF (cachedRead file) = before ++ line :: after ->
  Forall (fun l => truthy (groups_date l) = false) before ->
  truthy (groups_date line) = true ->
  findDate dayjs RegExp_g settings file = Return (Some (dayjs (groups_date line))).
Proof.
  intros Hs HR Hsplit Hbefore Hline.
  rewrite findDate_capture_group, HR, Hsplit by done. cbv zeta.
  by rewrite filter_truthy_app, Hline.
Qed.

Lemma findDate_capture_group_first_line_witness :
  let settings := with_source DEFAULT_SETTINGS (js "Capture group") (js "updated")
                    (captureGroupPattern DEFAULT_SETTINGS) in
  let file := {| mtime := 0;
                 cachedRead := text_of ["# note"; "// 2023/05/06"; "// 2024/01/01"] |} in
  split LF (cachedRead file)
  = [js "# note"] ++ js "// 2023/05/06" :: [js "// 2024/01/01"]
  /\ ReferenceHost.findDate settings file
     = Return (Some (ReferenceHost.dayjs (VString (js "2023/05/06")))).
Proof.
  split; [reflexivity|].
  apply (findDate_capture_group_first_line ReferenceHost.dayjs ReferenceHost.RegExp_g
           (with_source DEFAULT_SETTINGS (js "Capture group") (js "updated")
              (captureGroupPattern DEFAULT_SETTINGS))
           {| mtime := 0;
              cachedRead := text_of ["# note"; "// 2023/05/06"; "// 2024/01/01"] |}
           ReferenceHost.default_groups_date
           [js "# note"] [js "// 2024/01/01"] (js "// 2023/05/06")).
  - reflexivity.
  - reflexivity.
  - reflexivity.
  - repeat constructor.
  - reflexivity.
Defined.
